(** * Slayground: capacity checks and recurrence generation

    A shallow embedding of the booking core of [slayground_app]
    ([models.py], [admin.py], [forms.py], [views.py]) together with the
    properties of its capacity guard, its recurrence generator, its
    request validation and its calendar feed. *)

From stdpp Require Import base numbers list gmap strings sorting.
From Stdlib Require Import Ascii.

Local Open Scope Z_scope.

(** ** Exceptions and the result monad *)

Inductive exn : Set :=
| OverflowError   (* datetime / timedelta arithmetic out of range *)
| IntegrityError. (* a uniqueness constraint rejected an INSERT *)

Inductive result (A : Type) : Type :=
| Ok (a : A)
| Raise (e : exn).
Arguments Ok {A} a.
Arguments Raise {A} e.

(** ** The parts of Python's [datetime] module the application uses

    A [date] is its proleptic Gregorian ordinal ([date.toordinal()]), a
    [timedelta] is a number of microseconds and a [datetime] is the number
    of microseconds since the start of ordinal 0.  Rows come back from the
    database as UTC-aware values, so wall-clock arithmetic on them is
    arithmetic on instants. *)

Module PyDatetime.

Abbreviation date := Z (only parsing).
Abbreviation datetime := Z (only parsing).
Abbreviation timedelta := Z (only parsing).

Definition us_per_day : Z := 86400000000.
Definition MAXORDINAL : Z := 3652059.          (* date(9999, 12, 31).toordinal() *)
Definition MAX_DELTA_DAYS : Z := 999999999.

Definition _is_leap (year : Z) : bool :=
  (year mod 4 =? 0) && (negb (year mod 100 =? 0) || (year mod 400 =? 0)).

Definition _days_before_year (year : Z) : Z :=
  let y := year - 1 in y * 365 + y / 4 - y / 100 + y / 400.

Definition _DAYS_IN_MONTH : list Z :=
  [-1; 31; 28; 31; 30; 31; 30; 31; 31; 30; 31; 30; 31].

Definition _DAYS_BEFORE_MONTH : list Z :=
  [-1; 0; 31; 59; 90; 120; 151; 181; 212; 243; 273; 304; 334].

Definition _days_in_month (year month : Z) : Z :=
  if (month =? 2) && _is_leap year then 29
  else nth (Z.to_nat month) _DAYS_IN_MONTH (-1).

Definition _days_before_month (year month : Z) : Z :=
  nth (Z.to_nat month) _DAYS_BEFORE_MONTH (-1)
  + (if (2 <? month) && _is_leap year then 1 else 0).

Definition _ymd2ord (year month day : Z) : Z :=
  _days_before_year year + _days_before_month year month + day.

(** [date(year, month, day)]: [None] stands for the [ValueError] of the
    field checks. *)
Definition mk_date (year month day : Z) : option date :=
  if (1 <=? year) && (year <=? 9999) && (1 <=? month) && (month <=? 12)
     && (1 <=? day) && (day <=? _days_in_month year month)
  then Some (_ymd2ord year month day)
  else None.

(** A civil timestamp at [hour:minute] on the given day (no range check:
    used to write down concrete rows). *)
Definition at_time (year month day hour minute : Z) : datetime :=
  _ymd2ord year month day * us_per_day + (hour * 60 + minute) * 60000000.

Definition valid_date (d : date) : bool := (1 <=? d) && (d <=? MAXORDINAL).

(** [dt.date()] *)
Definition datetime_date (t : datetime) : date := t / us_per_day.

Definition valid_datetime (t : datetime) : bool := valid_date (datetime_date t).

(** [td.days] *)
Definition timedelta_days (td : timedelta) : Z := td / us_per_day.

(** [timedelta(weeks=w)] *)
Definition timedelta_weeks (w : Z) : result timedelta :=
  let days := 7 * w in
  if MAX_DELTA_DAYS <? Z.abs days then Raise OverflowError
  else Ok (days * us_per_day).

(** [t + td] on datetimes *)
Definition datetime_add (t : datetime) (td : timedelta) : result datetime :=
  let r := t + td in
  if valid_datetime r then Ok r else Raise OverflowError.

(** [d + td] on dates: only [td.days] is used *)
Definition date_add (d : date) (td : timedelta) : result date :=
  let o := d + timedelta_days td in
  if valid_date o then Ok o else Raise OverflowError.

(** [a - b] on datetimes *)
Definition datetime_sub (a b : datetime) : timedelta := a - b.

(** *** [datetime.strptime(s, "%Y-%m-%d").date()]

    The format compiles to the regular expression
    [(\d\d\d\d)-(1[0-2]|0[1-9]|[1-9])-(3[0-1]|[1-2]\d|0[1-9]|[1-9]| [1-9])];
    the whole string has to be consumed and the fields have to name a
    real day.  ASCII digits are modelled. [None] stands for [ValueError]. *)

Definition digit (a : Ascii.ascii) : option Z :=
  let n := Z.of_N (Ascii.N_of_ascii a) in
  if (48 <=? n) && (n <=? 57) then Some (n - 48) else None.

Definition is_dash (a : Ascii.ascii) : bool := Ascii.eqb a "-"%char.

Definition re_year (s : string) : option (Z * string) :=
  match s with
  | String a (String b (String c (String d rest))) =>
      match digit a, digit b, digit c, digit d with
      | Some a, Some b, Some c, Some d =>
          Some (a * 1000 + b * 100 + c * 10 + d, rest)
      | _, _, _, _ => None
      end
  | _ => None
  end.

Definition re_one_nonzero (s : string) : option (Z * string) :=
  match s with
  | String a rest =>
      match digit a with
      | Some x => if 1 <=? x then Some (x, rest) else None
      | None => None
      end
  | EmptyString => None
  end.

(** [1[0-2]|0[1-9]|[1-9]] *)
Definition re_month (s : string) : option (Z * string) :=
  match s with
  | String a (String b rest) =>
      match digit a, digit b with
      | Some 1, Some y => if y <=? 2 then Some (10 + y, rest) else re_one_nonzero s
      | Some 0, Some y => if 1 <=? y then Some (y, rest) else None
      | _, _ => re_one_nonzero s
      end
  | _ => re_one_nonzero s
  end.

(** [3[0-1]|[1-2]\d|0[1-9]|[1-9]| [1-9]] *)
Definition re_day (s : string) : option (Z * string) :=
  match s with
  | String a (String b rest) =>
      match digit a, digit b with
      | Some 3, Some y => if y <=? 1 then Some (30 + y, rest) else re_one_nonzero s
      | Some 1, Some y => Some (10 + y, rest)
      | Some 2, Some y => Some (20 + y, rest)
      | Some 0, Some y => if 1 <=? y then Some (y, rest) else None
      | Some _, _ => re_one_nonzero s
      | None, _ =>
          if Ascii.eqb a " "%char then re_one_nonzero (String b rest) else None
      end
  | _ => re_one_nonzero s
  end.

Definition expect_dash (s : string) : option string :=
  match s with
  | String a rest => if is_dash a then Some rest else None
  | EmptyString => None
  end.

Definition strptime_ymd (s : string) : option date :=
  '(y, s) ← re_year s;
  s ← expect_dash s;
  '(m, s) ← re_month s;
  s ← expect_dash s;
  '(d, s) ← re_day s;
  match s with
  | EmptyString => mk_date y m d
  | _ => None
  end.

End PyDatetime.
Import PyDatetime.

(** ** Computations over a table: state, exceptions and fuel

    A computation reads and writes a table of type [St]; it returns a
    value, raises, or runs out of fuel (the only unbounded loop of the
    application is the [while True] of the recurrence generator).  Rows
    written before an exception stay written. *)

Inductive outcome (A : Type) : Type :=
| Returned (a : A)
| Raised (e : exn)
| Diverged.
Arguments Returned {A} a.
Arguments Raised {A} e.
Arguments Diverged {A}.

Definition M (St A : Type) : Type := St -> outcome A * St.

#[global] Instance M_ret {St} : MRet (M St) := fun A a st => (Returned a, st).

#[global] Instance M_bind {St} : MBind (M St) := fun A B k m st =>
  match m st with
  | (Returned a, st') => k a st'
  | (Raised e, st') => (Raised e, st')
  | (Diverged, st') => (Diverged, st')
  end.

Definition lift {St A} (r : result A) : M St A := fun st =>
  match r with
  | Ok a => (Returned a, st)
  | Raise e => (Raised e, st)
  end.

Definition out_of_fuel {St A} : M St A := fun st => (Diverged, st).

(** ** ORM helpers *)

(** [aggregate(s=Sum("quantity"))["s"]]: SQL's SUM over no rows is NULL. *)
Definition aggregate_Sum (xs : list Z) : option Z :=
  match xs with
  | [] => None
  | _ => Some (foldr Z.add 0 xs)
  end.

(** [x or 0] for [x] an integer or [None]. *)
Definition or_0 (x : option Z) : Z :=
  match x with
  | None => 0
  | Some v => if v =? 0 then 0 else v
  end.

(** ** Models *)

Inductive Status : Set := PENDING | CONFIRMED | CANCELLED | REFUNDED.

#[global] Instance Status_eq_dec : EqDecision Status.
Proof. solve_decision. Defined.

(** An entry of the [recurrence_skips] JSON list. *)
Inductive skip_entry : Type :=
| JStr (s : string)
| JDate (d : date)
| JOther.

Module Booking.

Record t : Type := mk {
  id : Z;
  user : Z;
  session : Z;            (* foreign key: ClassSession.id *)
  quantity : Z;           (* PositiveIntegerField, CheckConstraint(quantity__gte=1) *)
  status : Status;
}.

End Booking.

Module ClassSession.

Record t : Type := mk {
  id : Z;
  class_type : Z;         (* foreign key: ClassType.id *)
  instructor : option Z;
  location : option Z;
  start_datetime : datetime;
  end_datetime : datetime;
  capacity : Z;
  price_cents : Z;
  is_published : bool;
  notes : string;
  recurrence_enabled : bool;
  recurrence_every_n_weeks : Z;
  recurrence_until : option date;
  recurrence_skips : list skip_entry;
}.

(** [self.bookings]: the reverse side of [Booking.session]. *)
Definition bookings (self : t) (tbl : list Booking.t) : list Booking.t :=
  filter (fun b => Booking.session b = id self) tbl.

Definition spots_left (self : t) (tbl : list Booking.t) : Z :=
  let confirmed :=
    or_0 (aggregate_Sum
            (Booking.quantity <$>
               filter (fun b => Booking.status b = CONFIRMED) (bookings self tbl))) in
  Z.max (capacity self - confirmed) 0.

Definition can_accept (self : t) (tbl : list Booking.t) (qty : Z) : bool :=
  (0 <? qty) && (qty <=? spots_left self tbl).

Definition _skip_set (self : t) : gset Z :=
  foldl (fun out v =>
           match v with
           | JStr s =>
               match strptime_ymd s with
               | Some d => out ∪ {[ d ]}
               | None => out          (* ValueError: ignore malformed entries *)
               end
           | JDate d => out ∪ {[ d ]}
           | JOther => out
           end)
        ∅ (recurrence_skips self).

(** *** The table [ClassSession.objects] *)

(** The rows matched by [filter(class_type=ct, start_datetime=start)]:
    is there one? *)
Definition has_type_start (ct : Z) (start : datetime) (tbl : list t) : bool :=
  existsb (fun r => (class_type r =? ct) && (start_datetime r =? start)) tbl.

(** [filter(class_type=ct, start_datetime=start).exists()] *)
Definition exists_type_start (ct : Z) (start : datetime) : M (list t) bool :=
  fun tbl => (Returned (has_type_start ct start tbl), tbl).

Definition fresh_id (tbl : list t) : Z := 1 + foldr Z.max 0 (id <$> tbl).

(** The row built from the keyword arguments of [objects.create]: the
    recurrence fields are not passed and take their defaults. *)
Definition new_row (key : Z) (ct : Z) (instr loc : option Z) (start end_ : datetime)
    (cap price : Z) (published : bool) (nts : string) : t :=
  {| id := key; class_type := ct; instructor := instr; location := loc;
     start_datetime := start; end_datetime := end_; capacity := cap;
     price_cents := price; is_published := published; notes := nts;
     recurrence_enabled := false; recurrence_every_n_weeks := 1;
     recurrence_until := None; recurrence_skips := [] |}.

(** [objects.create(...)]: the key is assigned by the database and the
    constraint [unique_classsession_type_start] is checked on insertion. *)
Definition objects_create
    (ct : Z) (instr loc : option Z) (start end_ : datetime)
    (cap price : Z) (published : bool) (nts : string) : M (list t) unit :=
  fun tbl =>
    if has_type_start ct start tbl then (Raised IntegrityError, tbl)
    else (Returned (),
          tbl ++ [new_row (fresh_id tbl) ct instr loc start end_ cap price published nts]).

(** The row that the generators insert for the seed [self] at [start_dt]:
    every non-schedule field is copied from the seed. *)
Definition occurrence (self : t) (key : Z) (start_dt end_dt : datetime) : t :=
  new_row key (class_type self) (instructor self) (location self) start_dt end_dt
          (capacity self) (price_cents self) (is_published self) (notes self).

(** What holds of a row inserted while generating from [self]: it is in
    the seed's series, its day is not skipped and it lasts [duration]. *)
Definition made_by (self : t) (skip_set : gset Z) (duration : timedelta) (r : t) : Prop :=
  class_type r = class_type self
  /\ (datetime_date (start_datetime r) ∉ skip_set)
  /\ datetime_sub (end_datetime r) (start_datetime r) = duration.

(** *** [generate_recurrences] *)

Record counts : Type := mk_counts {
  created : Z;
  skipped : Z;
  reason : string;
}.

(** The [while True] loop; [fuel] bounds the number of iterations. *)
Fixpoint recurrence_loop (fuel : nat) (self : t) (dry_run : bool)
    (end_date : date) (duration : timedelta) (skip_set : gset Z)
    (cursor : datetime) (n_created n_skipped : Z) : M (list t) counts :=
  match fuel with
  | O => out_of_fuel
  | S fuel =>
      step ← lift (timedelta_weeks (recurrence_every_n_weeks self));
      cursor ← lift (datetime_add cursor step);
      if end_date <? datetime_date cursor then
        mret {| created := n_created; skipped := n_skipped; reason := "ok" |}
      else if bool_decide (datetime_date cursor ∈ skip_set) then
        recurrence_loop fuel self dry_run end_date duration skip_set
                        cursor n_created (n_skipped + 1)
      else
        let start_dt := cursor in
        end_dt ← lift (datetime_add start_dt duration);
        exists_ ← exists_type_start (class_type self) start_dt;
        if exists_ : bool then
          recurrence_loop fuel self dry_run end_date duration skip_set
                          cursor n_created (n_skipped + 1)
        else
          (if dry_run then mret ()
           else objects_create (class_type self) (instructor self) (location self)
                               start_dt end_dt (capacity self) (price_cents self)
                               (is_published self) (notes self));;
          recurrence_loop fuel self dry_run end_date duration skip_set
                          cursor (n_created + 1) n_skipped
  end.

Definition generate_recurrences (fuel : nat) (self : t)
    (default_weeks : Z) (dry_run : bool) : M (list t) counts :=
  if negb (recurrence_enabled self) then
    mret {| created := 0; skipped := 0; reason := "disabled" |}
  else
    end_date ← match recurrence_until self with
               | Some d => mret d
               | None =>
                   horizon ← lift (timedelta_weeks default_weeks);
                   lift (date_add (datetime_date (start_datetime self)) horizon)
               end;
    if end_date <? datetime_date (start_datetime self) then
      mret {| created := 0; skipped := 0; reason := "empty-range" |}
    else
      let duration := datetime_sub (end_datetime self) (start_datetime self) in
      let skip_set := _skip_set self in
      recurrence_loop fuel self dry_run end_date duration skip_set
                      (start_datetime self) 0 0.

(** What holds of a row written by the loop started at [cursor]: it is
    the seed's copy a positive number of intervals after the cursor, on
    a day up to [end_date] that is not skipped. *)
Definition written_after (self : t) (end_date : date) (duration : timedelta)
    (skip_set : gset Z) (cursor : datetime) (r : t) : Prop :=
  exists k key,
    1 <= k
    /\ r = occurrence self key
             (cursor + k * (7 * recurrence_every_n_weeks self * us_per_day))
             (cursor + k * (7 * recurrence_every_n_weeks self * us_per_day) + duration)
    /\ datetime_date (cursor + k * (7 * recurrence_every_n_weeks self * us_per_day))
       <= end_date
    /\ (datetime_date (cursor + k * (7 * recurrence_every_n_weeks self * us_per_day))
        ∉ skip_set).

(** The last day [generate_recurrences] projects to: [recurrence_until],
    or [default_weeks] weeks after the seed's day. *)
Definition end_date_of (self : t) (default_weeks : Z) : date :=
  match recurrence_until self with
  | Some d => d
  | None => datetime_date (start_datetime self) + 7 * default_weeks
  end.

(** *** [clean] and the table constraint *)

(** [clean]: [Some msg] stands for the [ValidationError] raised. *)
Definition clean (self : t) : option string :=
  if end_datetime self <=? start_datetime self
  then Some "End time must be after start time."%string
  else None.

(** [Meta.constraints]: [UniqueConstraint(fields=["class_type",
    "start_datetime"], name="unique_classsession_type_start")]. *)
Definition unique_classsession_type_start (tbl : list t) : Prop :=
  NoDup ((fun r => (class_type r, start_datetime r)) <$> tbl).

End ClassSession.

Module EventRegistration.

Record t : Type := mk {
  id : Z;
  user : Z;
  event : Z;              (* foreign key: Event.id *)
  quantity : Z;
  status : Status;
}.

End EventRegistration.

Inductive EventType : Set := PRIVATE | PUBLIC.

#[global] Instance EventType_eq_dec : EqDecision EventType.
Proof. solve_decision. Defined.

Module Event.

Record t : Type := mk {
  id : Z;
  event_type : EventType;
  start_datetime : option datetime;
  end_datetime : option datetime;
  capacity : Z;           (* 0 = unlimited (for PUBLIC) *)
  price_cents : Z;
  is_published : bool;
}.

Definition is_public (self : t) : bool := bool_decide (event_type self = PUBLIC).

Definition is_private (self : t) : bool := bool_decide (event_type self = PRIVATE).

(** [self.registrations]: the reverse side of [EventRegistration.event]. *)
Definition registrations (self : t) (tbl : list EventRegistration.t)
  : list EventRegistration.t :=
  filter (fun r => EventRegistration.event r = id self) tbl.

Definition spots_left (self : t) (tbl : list EventRegistration.t) : option Z :=
  if (capacity self <=? 0) || negb (is_public self) then None
  else
    let confirmed :=
      or_0 (aggregate_Sum
              (EventRegistration.quantity <$>
                 filter (fun r => EventRegistration.status r = CONFIRMED)
                        (registrations self tbl))) in
    Some (Z.max (capacity self - confirmed) 0).

Definition can_accept (self : t) (tbl : list EventRegistration.t) (qty : Z) : bool :=
  if negb (is_public self) || (capacity self <=? 0) then true
  else (0 <? qty) && (qty <=? or_0 (spots_left self tbl)).

End Event.

(** ** Forms ([forms.py]) *)

(** What [clean] does: raise a form-wide [ValidationError], or return the
    cleaned data with the field errors it attached through [add_error]
    (each names a field and the spots left it reports). *)
Inductive clean_result : Type :=
| ValidationError (msg : string)
| Cleaned (field_errors : list (string * option Z)).

Module BookingCreateForm.

(** [quantity] is [cleaned.get("quantity")]: [None] when the field itself
    did not validate. *)
Definition clean (session : option ClassSession.t) (quantity : option Z)
    (now : datetime) (bookings : list Booking.t) : clean_result :=
  match session with
  | None => ValidationError "No class session selected."
  | Some session =>
      if ClassSession.start_datetime session <? now then
        ValidationError "This class has already started or finished."
      else
        let qty := match quantity with
                   | Some q => if q =? 0 then 1 else q
                   | None => 1
                   end in
        if negb (ClassSession.can_accept session bookings qty) then
          Cleaned [("quantity", Some (ClassSession.spots_left session bookings))]
        else Cleaned []
  end.

End BookingCreateForm.

Module EventRegistrationForm.

Definition clean (event : option Event.t) (quantity : option Z)
    (now : datetime) (registrations : list EventRegistration.t) : clean_result :=
  match event with
  | None => ValidationError "Invalid event."
  | Some event =>
      if negb (Event.is_public event) then ValidationError "Invalid event."
      else if match Event.start_datetime event with
              | Some start => start <? now
              | None => false
              end then
        ValidationError "This event has already started or finished."
      else
        let qty := match quantity with
                   | Some q => if q =? 0 then 1 else q
                   | None => 1
                   end in
        if negb (Event.can_accept event registrations qty) then
          Cleaned [("quantity", Event.spots_left event registrations)]
        else Cleaned []
  end.

End EventRegistrationForm.

(** ** The admin action [generate_repeats] ([admin.py]) *)

Module ClassSessionAdmin.

(** The action form as posted: an [IntegerField] is [None] when the value
    is missing or is not an integer. *)
Record RepeatSessionsActionForm : Type := mk_form {
  occurrences : option Z;
  every_n_weeks : option Z;
  skip_dates : string;
}.

(** [form.is_valid()]: both integer fields carry [min_value=1]. *)
Definition is_valid (form : RepeatSessionsActionForm) : option (Z * Z) :=
  match occurrences form, every_n_weeks form with
  | Some occ, Some itv => if (1 <=? occ) && (1 <=? itv) then Some (occ, itv) else None
  | _, _ => None
  end.

(** The class [[,\s]] on ASCII text. *)
Definition is_space (a : Ascii.ascii) : bool :=
  let n := Z.of_N (Ascii.N_of_ascii a) in
  ((9 <=? n) && (n <=? 13)) || ((28 <=? n) && (n <=? 32)).

Definition is_sep (a : Ascii.ascii) : bool := Ascii.eqb a ","%char || is_space a.

Definition starts_with_sep (s : string) : bool :=
  match s with
  | String a _ => is_sep a
  | EmptyString => false
  end.

(** [re.split(r"[,\s]+", s)] *)
Fixpoint re_split (s : string) : list string :=
  match s with
  | EmptyString => [EmptyString]
  | String a rest =>
      let toks := re_split rest in
      if is_sep a then
        if starts_with_sep rest then toks else EmptyString :: toks
      else
        match toks with
        | t :: ts => String a t :: ts
        | [] => [String a EmptyString]
        end
  end.

Fixpoint lstrip (s : string) : string :=
  match s with
  | String a rest => if is_space a then lstrip rest else s
  | EmptyString => EmptyString
  end.

Definition strip (s : string) : string :=
  String.rev (lstrip (String.rev (lstrip s))).

Definition parse_skips (raw : string) : gset Z :=
  let raw_skips := strip raw in
  match raw_skips with
  | EmptyString => ∅
  | _ =>
      foldl (fun skip_set token =>
               match token with
               | EmptyString => skip_set
               | _ =>
                   match strptime_ymd token with
                   | Some d => skip_set ∪ {[ d ]}
                   | None => skip_set
                   end
               end)
            ∅ (re_split raw_skips)
  end.

Inductive message : Type :=
| ERROR (text : string)
| INFO_created_skipped (created skipped : Z).

(** [for i in range(1, occurrences + 1)] for one seed; [is_] is the range. *)
Fixpoint repeats_of_seed (seed : ClassSession.t) (interval : Z)
    (skip_set : gset Z) (duration : timedelta) (is_ : list Z)
    (created skipped : Z) : M (list ClassSession.t) (Z * Z) :=
  match is_ with
  | [] => mret (created, skipped)
  | i :: is_ =>
      step ← lift (timedelta_weeks (interval * i));
      start_dt ← lift (datetime_add (ClassSession.start_datetime seed) step);
      if bool_decide (datetime_date start_dt ∈ skip_set) then
        repeats_of_seed seed interval skip_set duration is_ created (skipped + 1)
      else
        end_dt ← lift (datetime_add start_dt duration);
        exists_ ← ClassSession.exists_type_start (ClassSession.class_type seed) start_dt;
        if exists_ : bool then
          repeats_of_seed seed interval skip_set duration is_ created (skipped + 1)
        else
          ClassSession.objects_create
            (ClassSession.class_type seed) (ClassSession.instructor seed)
            (ClassSession.location seed) start_dt end_dt
            (ClassSession.capacity seed) (ClassSession.price_cents seed)
            (ClassSession.is_published seed) (ClassSession.notes seed);;
          repeats_of_seed seed interval skip_set duration is_ (created + 1) skipped
  end.

(** [for seed in queryset] *)
Fixpoint repeats_of_queryset (queryset : list ClassSession.t) (occurrences interval : Z)
    (skip_set : gset Z) (created skipped : Z) : M (list ClassSession.t) (Z * Z) :=
  match queryset with
  | [] => mret (created, skipped)
  | seed :: queryset =>
      let duration := datetime_sub (ClassSession.end_datetime seed)
                                   (ClassSession.start_datetime seed) in
      '(created, skipped) ← repeats_of_seed seed interval skip_set duration
                               (seqZ 1 occurrences) created skipped;
      repeats_of_queryset queryset occurrences interval skip_set created skipped
  end.

Definition generate_repeats (form : RepeatSessionsActionForm)
    (queryset : list ClassSession.t) : M (list ClassSession.t) message :=
  match is_valid form with
  | None => mret (ERROR "Please provide valid repeat options.")
  | Some (occurrences, interval) =>
      let skip_set := parse_skips (skip_dates form) in
      '(created, skipped) ← repeats_of_queryset queryset occurrences interval skip_set 0 0;
      mret (INFO_created_skipped created skipped)
  end.

(** *** The action [generate_from_recurrence_fields] *)

Inductive recurrence_message : Type :=
| INFO_generated_skipped (generated skipped : Z).

(** [for seed in queryset]: each seed runs its own generator with
    [default_weeks=12, dry_run=False]; [fuel] bounds each of these runs. *)
Fixpoint recurrence_fields_loop (fuel : nat) (queryset : list ClassSession.t)
    (total_created total_skipped : Z) : M (list ClassSession.t) (Z * Z) :=
  match queryset with
  | [] => mret (total_created, total_skipped)
  | seed :: queryset =>
      res ← ClassSession.generate_recurrences fuel seed 12 false;
      recurrence_fields_loop fuel queryset
        (total_created + ClassSession.created res)
        (total_skipped + ClassSession.skipped res)
  end.

Definition generate_from_recurrence_fields (fuel : nat) (queryset : list ClassSession.t)
  : M (list ClassSession.t) recurrence_message :=
  '(total_created, total_skipped) ← recurrence_fields_loop fuel queryset 0 0;
  mret (INFO_generated_skipped total_created total_skipped).

(** What holds of a row inserted by the action: it was made from one of
    the selected seeds and lasts as long as that seed. *)
Definition made_from (skip_set : gset Z) (queryset : list ClassSession.t)
    (r : ClassSession.t) : Prop :=
  exists seed, seed ∈ queryset
    /\ ClassSession.made_by seed skip_set
         (datetime_sub (ClassSession.end_datetime seed) (ClassSession.start_datetime seed)) r.

End ClassSessionAdmin.

(** ** The calendar feed ([views.calendar_events]) *)

(** What [datetime.fromisoformat] returns: a naive wall-clock value or an
    aware instant. *)
Inductive iso_datetime : Type :=
| Naive (wall : Z)
| Aware (t : datetime).

(** One record of the JSON feed; title and url are looked up from
    [class_type] and [id]. *)
Record feed_event : Type := mk_feed_event {
  ev_id : Z;
  ev_class_type : Z;
  ev_start : datetime;
  ev_end : datetime;
}.

Definition to_feed_event (s : ClassSession.t) : feed_event :=
  {| ev_id := ClassSession.id s; ev_class_type := ClassSession.class_type s;
     ev_start := ClassSession.start_datetime s; ev_end := ClassSession.end_datetime s |}.

(** Truth value of [request.GET.get(name)]: absent and empty are false. *)
Definition truthy (p : option string) : option string :=
  match p with
  | Some (String a s) => Some (String a s)
  | _ => None
  end.

(** [order_by("start_datetime")] *)
Definition start_le (a b : ClassSession.t) : Prop :=
  ClassSession.start_datetime a <= ClassSession.start_datetime b.

#[global] Instance start_le_dec : RelDecision start_le.
Proof. intros a b. unfold start_le. apply _. Defined.

Definition order_by_start (qs : list ClassSession.t) : list ClassSession.t :=
  merge_sort start_le qs.

Section CalendarFeed.

(** The library parser ([None]: [ValueError]) and
    [timezone.make_aware(_, get_current_timezone())]. *)
Variable fromisoformat : string -> option iso_datetime.
Variable make_aware : Z -> datetime.

Definition parse_aware (s : string) : option datetime :=
  match fromisoformat s with
  | Some (Naive wall) => Some (make_aware wall)
  | Some (Aware t) => Some t
  | None => None
  end.

Definition calendar_events (start_param end_param : option string)
    (now : datetime) (objects : list ClassSession.t) : list feed_event :=
  let events_qs := filter (fun s => ClassSession.is_published s = true) objects in
  (* Limit to future by default if no range provided *)
  let events_qs :=
    match truthy start_param, truthy end_param with
    | None, None => filter (fun s => now <= ClassSession.start_datetime s) events_qs
    | _, _ => events_qs
    end in
  (* try: ... except ValueError: pass *)
  let events_qs :=
    match match truthy start_param with
          | Some sp =>
              match parse_aware sp with
              | Some start_dt =>
                  Some (filter (fun s => start_dt <= ClassSession.start_datetime s) events_qs)
              | None => None
              end
          | None => Some events_qs
          end with
    | None => events_qs
    | Some qs =>
        match truthy end_param with
        | Some ep =>
            match parse_aware ep with
            | Some end_dt => filter (fun s => ClassSession.start_datetime s <= end_dt) qs
            | None => qs
            end
        | None => qs
        end
    end in
  to_feed_event <$> order_by_start events_qs.

End CalendarFeed.

(** The default "future only" feed: the published slots that start at
    [now] or later. *)
Definition future_only_feed (now : datetime) (objects : list ClassSession.t)
  : list feed_event :=
  to_feed_event <$>
    order_by_start
      (filter (fun s => ClassSession.is_published s = true
                        /\ now <= ClassSession.start_datetime s) objects).

(** ** The capacity rule as the specification words it *)

(** The sum of [quantity] over the bookings of slot [sid] in one of the
    given statuses. *)
Fixpoint committed_sum (counted : Status -> bool) (sid : Z) (tbl : list Booking.t) : Z :=
  match tbl with
  | [] => 0
  | b :: tbl =>
      (if (Booking.session b =? sid) && counted (Booking.status b)
       then Booking.quantity b else 0)
      + committed_sum counted sid tbl
  end.

Definition confirmed_only (s : Status) : bool :=
  match s with CONFIRMED => true | _ => false end.

Definition pending_or_confirmed (s : Status) : bool :=
  match s with PENDING | CONFIRMED => true | _ => false end.

(** The same sum over the registrations of an event. *)
Fixpoint committed_sum_event (counted : Status -> bool) (eid : Z)
    (tbl : list EventRegistration.t) : Z :=
  match tbl with
  | [] => 0
  | r :: tbl =>
      (if (EventRegistration.event r =? eid) && counted (EventRegistration.status r)
       then EventRegistration.quantity r else 0)
      + committed_sum_event counted eid tbl
  end.

(** ** Concrete rows used in examples *)

(** A one-place slot and a PENDING booking of it. *)
Definition one_place_slot : ClassSession.t :=
  {| ClassSession.id := 1; ClassSession.class_type := 1;
     ClassSession.instructor := None; ClassSession.location := None;
     ClassSession.start_datetime := at_time 2024 1 1 0 0;
     ClassSession.end_datetime := at_time 2024 1 1 1 0;
     ClassSession.capacity := 1; ClassSession.price_cents := 0;
     ClassSession.is_published := true; ClassSession.notes := EmptyString;
     ClassSession.recurrence_enabled := false;
     ClassSession.recurrence_every_n_weeks := 1;
     ClassSession.recurrence_until := None; ClassSession.recurrence_skips := [] |}.

Definition pending_booking : Booking.t :=
  {| Booking.id := 1; Booking.user := 1; Booking.session := 1;
     Booking.quantity := 1; Booking.status := PENDING |}.

(** A public event without a capacity limit and a large CONFIRMED
    registration for it. *)
Definition open_event : Event.t :=
  {| Event.id := 7; Event.event_type := PUBLIC;
     Event.start_datetime := Some (at_time 2024 6 1 18 0);
     Event.end_datetime := Some (at_time 2024 6 1 20 0);
     Event.capacity := 0; Event.price_cents := 0; Event.is_published := true |}.

Definition big_registration : EventRegistration.t :=
  {| EventRegistration.id := 1; EventRegistration.user := 1;
     EventRegistration.event := 7; EventRegistration.quantity := 50;
     EventRegistration.status := CONFIRMED |}.

(** A class session of capacity 0 and a CONFIRMED booking of it. *)
Definition closed_slot : ClassSession.t :=
  {| ClassSession.id := 2; ClassSession.class_type := 1;
     ClassSession.instructor := None; ClassSession.location := None;
     ClassSession.start_datetime := at_time 2024 1 2 0 0;
     ClassSession.end_datetime := at_time 2024 1 2 1 0;
     ClassSession.capacity := 0; ClassSession.price_cents := 0;
     ClassSession.is_published := true; ClassSession.notes := EmptyString;
     ClassSession.recurrence_enabled := false;
     ClassSession.recurrence_every_n_weeks := 1;
     ClassSession.recurrence_until := None; ClassSession.recurrence_skips := [] |}.

Definition confirmed_booking : Booking.t :=
  {| Booking.id := 2; Booking.user := 1; Booking.session := 2;
     Booking.quantity := 3; Booking.status := CONFIRMED |}.

(** The seed of the recurrence example: Monday 2024-01-01 00:00 to 01:00,
    weekly until 2024-01-22, skipping 2024-01-08. *)
Definition weekly_seed : ClassSession.t :=
  {| ClassSession.id := 1; ClassSession.class_type := 1;
     ClassSession.instructor := Some 1; ClassSession.location := None;
     ClassSession.start_datetime := at_time 2024 1 1 0 0;
     ClassSession.end_datetime := at_time 2024 1 1 1 0;
     ClassSession.capacity := 20; ClassSession.price_cents := 1500;
     ClassSession.is_published := true; ClassSession.notes := EmptyString;
     ClassSession.recurrence_enabled := true;
     ClassSession.recurrence_every_n_weeks := 1;
     ClassSession.recurrence_until := mk_date 2024 1 22;
     ClassSession.recurrence_skips := [JStr "2024-01-08"] |}.

(** The same seed with an interval of zero weeks and no end date. *)
Definition zero_interval_seed : ClassSession.t :=
  {| ClassSession.id := 1; ClassSession.class_type := 1;
     ClassSession.instructor := Some 1; ClassSession.location := None;
     ClassSession.start_datetime := at_time 2024 1 1 0 0;
     ClassSession.end_datetime := at_time 2024 1 1 1 0;
     ClassSession.capacity := 20; ClassSession.price_cents := 1500;
     ClassSession.is_published := true; ClassSession.notes := EmptyString;
     ClassSession.recurrence_enabled := true;
     ClassSession.recurrence_every_n_weeks := 0;
     ClassSession.recurrence_until := None;
     ClassSession.recurrence_skips := [] |}.

(** The table left by a first persisting run over the weekly seed. *)
Definition weekly_after_first_run : list ClassSession.t :=
  snd (ClassSession.generate_recurrences 10 weekly_seed 12 false [weekly_seed]).

(** The date-only strings that [datetime.fromisoformat] accepts
    ([YYYY-MM-DD], read as midnight, naive); everything else is refused
    here. *)
Definition fromisoformat_date_only (s : string) : option iso_datetime :=
  match strptime_ymd s with
  | Some d => if (String.length s =? 10)%nat then Some (Naive (d * us_per_day)) else None
  | None => None
  end.

(** [make_aware] when the current time zone is UTC. *)
Definition make_aware_utc (wall : Z) : datetime := wall.

(** A past and an upcoming registration attempt, seen on 2024-06-01. *)
Definition first_of_june : datetime := at_time 2024 6 1 0 0.

Definition past_event : Event.t :=
  {| Event.id := 8; Event.event_type := PUBLIC;
     Event.start_datetime := Some (at_time 2024 5 1 18 0);
     Event.end_datetime := Some (at_time 2024 5 1 20 0);
     Event.capacity := 0; Event.price_cents := 0; Event.is_published := true |}.

(** The batch options "3 occurrences, weekly, skip 2024-01-08", with a
    token that is not a date. *)
Definition weekly_form : ClassSessionAdmin.RepeatSessionsActionForm :=
  {| ClassSessionAdmin.occurrences := Some 3;
     ClassSessionAdmin.every_n_weeks := Some 1;
     ClassSessionAdmin.skip_dates := "2024-01-08, junk" |}.


(** Options without a number of occurrences. *)
Definition incomplete_form : ClassSessionAdmin.RepeatSessionsActionForm :=
  {| ClassSessionAdmin.occurrences := None;
     ClassSessionAdmin.every_n_weeks := Some 1;
     ClassSessionAdmin.skip_dates := EmptyString |}.

(** ** Model validation of reservations ([models.py]) *)

(** [Booking.clean]; [session] is [self.session], the row the foreign key
    points to.  [Some n] stands for the [ValidationError] "Only n spots
    left for this session." *)
Definition Booking_clean (self : Booking.t) (session : ClassSession.t)
    (bookings : list Booking.t) : option Z :=
  if (bool_decide (Booking.status self = PENDING)
      || bool_decide (Booking.status self = CONFIRMED))
     && negb (ClassSession.can_accept session bookings (Booking.quantity self))
  then Some (ClassSession.spots_left session bookings)
  else None.

(** [EventRegistration.clean]; [event] is [self.event].  [Some n] stands
    for the [ValidationError] "Only n spots left for this event.", where
    [n] is what [spots_left] returned. *)
Definition EventRegistration_clean (self : EventRegistration.t) (event : Event.t)
    (registrations : list EventRegistration.t) : option (option Z) :=
  if negb (Event.can_accept event registrations (EventRegistration.quantity self))
  then Some (Event.spots_left event registrations)
  else None.

(** A CONFIRMED booking of six places on a ten-place slot. *)
Definition ten_place_slot : ClassSession.t :=
  {| ClassSession.id := 3; ClassSession.class_type := 1;
     ClassSession.instructor := None; ClassSession.location := None;
     ClassSession.start_datetime := at_time 2024 7 1 18 0;
     ClassSession.end_datetime := at_time 2024 7 1 19 0;
     ClassSession.capacity := 10; ClassSession.price_cents := 0;
     ClassSession.is_published := true; ClassSession.notes := EmptyString;
     ClassSession.recurrence_enabled := false;
     ClassSession.recurrence_every_n_weeks := 1;
     ClassSession.recurrence_until := None; ClassSession.recurrence_skips := [] |}.

Definition six_places : Booking.t :=
  {| Booking.id := 3; Booking.user := 1; Booking.session := 3;
     Booking.quantity := 6; Booking.status := CONFIRMED |}.

Definition four_places : Booking.t :=
  {| Booking.id := 4; Booking.user := 2; Booking.session := 3;
     Booking.quantity := 4; Booking.status := CONFIRMED |}.

(** A public event of five places with three of them CONFIRMED. *)
Definition small_event : Event.t :=
  {| Event.id := 9; Event.event_type := PUBLIC;
     Event.start_datetime := Some (at_time 2024 7 1 18 0);
     Event.end_datetime := Some (at_time 2024 7 1 20 0);
     Event.capacity := 5; Event.price_cents := 0; Event.is_published := true |}.

Definition three_seats : EventRegistration.t :=
  {| EventRegistration.id := 2; EventRegistration.user := 1;
     EventRegistration.event := 9; EventRegistration.quantity := 3;
     EventRegistration.status := CONFIRMED |}.

(** ** Listings and the staff shortcut ([views.py]) *)

(** [ClassSession.objects.filter(is_published=True,
    start_datetime__gte=now).order_by("start_datetime")], the queryset
    [home] and [class_list] start from. *)
Definition upcoming (now : datetime) (objects : list ClassSession.t)
  : list ClassSession.t :=
  order_by_start
    (filter (fun s => ClassSession.is_published s = true
                      /\ now <= ClassSession.start_datetime s) objects).

(** The [upcoming] entry of [home]: the slice [[:6]]. *)
Definition home_upcoming (now : datetime) (objects : list ClassSession.t)
  : list ClassSession.t :=
  take 6 (upcoming now objects).

Module MediaItem.

Inductive Visibility : Set := PUBLIC | MEMBERS.

#[global] Instance Visibility_eq_dec : EqDecision Visibility.
Proof. solve_decision. Defined.

Record t : Type := mk {
  id : Z;
  category : Z;
  visibility : Visibility;
  is_active : bool;
  publish_at : option datetime;
}.

End MediaItem.

Section ContentViews.

(** [order_by("-publish_at", "-created_at")]; where rows without
    [publish_at] go is left to the database. *)
Variable order_latest : list MediaItem.t -> list MediaItem.t.

(** The [latest_content] entry of [home]: six rows are fetched, then an
    anonymous visitor's list is filtered in Python. *)
Definition home_latest_content (is_authenticated : bool) (items : list MediaItem.t)
  : list MediaItem.t :=
  let latest_content :=
    take 6 (order_latest (filter (fun m => MediaItem.is_active m = true) items)) in
  if negb is_authenticated
  then filter (fun m => MediaItem.visibility m = MediaItem.PUBLIC) latest_content
  else latest_content.

(** The [items] entry of [content_hub]: the visibility filter is part of
    the query, the slice [[:24]] comes last. *)
Definition content_hub_items (is_authenticated : bool) (items : list MediaItem.t)
  : list MediaItem.t :=
  let active := filter (fun m => MediaItem.is_active m = true) items in
  let items_qs :=
    if negb is_authenticated
    then filter (fun m => MediaItem.visibility m = MediaItem.PUBLIC) active
    else active in
  take 24 (order_latest items_qs).

End ContentViews.

Module QuickSessionCreateForm.

(** The posted fields after their own validation: [None] for a required
    field that is missing or malformed, and for an optional one left
    empty. *)
Record t : Type := mk {
  class_type : option Z;
  instructor : option Z;
  location : option Z;
  start_datetime : option datetime;
  end_datetime : option datetime;
  capacity : option Z;      (* IntegerField(min_value=1) *)
  price_cents : option Z;   (* IntegerField(min_value=0) *)
}.

Definition fields_valid (form : t) : bool :=
  match class_type form, start_datetime form, end_datetime form,
        capacity form, price_cents form with
  | Some _, Some _, Some _, Some cap, Some price => (1 <=? cap) && (0 <=? price)
  | _, _, _, _, _ => false
  end.

(** [clean]: [Some msg] stands for the [ValidationError] raised. *)
Definition clean (form : t) : option string :=
  match start_datetime form, end_datetime form with
  | Some start, Some end_ =>
      if end_ <=? start then Some "End time must be after start time."%string else None
  | _, _ => None
  end.

Definition is_valid (form : t) : bool :=
  fields_valid form && bool_decide (clean form = None).

End QuickSessionCreateForm.

Inductive http_method : Set := GET | POST | OTHER_METHOD.

Inductive response : Type :=
| REDIRECT (to : string)
| RENDER (template : string)
| NOT_ALLOWED.               (* 405, from [require_http_methods] *)

(** [quick_create_session]; [is_staff] is what [staff_member_required],
    the outer decorator, tests. *)
Definition quick_create_session (is_staff : bool) (method : http_method)
    (form : QuickSessionCreateForm.t) : M (list ClassSession.t) response :=
  if negb is_staff then mret (REDIRECT "admin:login")
  else
    match method with
    | OTHER_METHOD => mret NOT_ALLOWED
    | GET => mret (RENDER "sg/quick_create_session.html")
    | POST =>
        if QuickSessionCreateForm.is_valid form then
          match QuickSessionCreateForm.class_type form,
                QuickSessionCreateForm.start_datetime form,
                QuickSessionCreateForm.end_datetime form,
                QuickSessionCreateForm.capacity form,
                QuickSessionCreateForm.price_cents form with
          | Some ct, Some start, Some end_, Some cap, Some price =>
              ClassSession.objects_create ct (QuickSessionCreateForm.instructor form)
                (QuickSessionCreateForm.location form) start end_ cap price true
                EmptyString;;
              mret (REDIRECT "sg:class_list")
          | _, _, _, _, _ => mret (RENDER "sg/quick_create_session.html")
          end
        else mret (RENDER "sg/quick_create_session.html")
    end.

(** A members-only item and a public one, both active. *)
Definition members_item : MediaItem.t :=
  {| MediaItem.id := 1; MediaItem.category := 1; MediaItem.visibility := MediaItem.MEMBERS;
     MediaItem.is_active := true; MediaItem.publish_at := None |}.

Definition public_item : MediaItem.t :=
  {| MediaItem.id := 2; MediaItem.category := 1; MediaItem.visibility := MediaItem.PUBLIC;
     MediaItem.is_active := true; MediaItem.publish_at := None |}.


(** * Properties *)

(** ** The date helpers on examples *)

Example ymd2ord_2024_01_01 : mk_date 2024 1 1 = Some 738886.
Proof. reflexivity. Qed.

Example strptime_ok : strptime_ymd "2024-01-08" = mk_date 2024 1 8.
Proof. reflexivity. Qed.

Example strptime_short_fields : strptime_ymd "2024-1-8" = mk_date 2024 1 8.
Proof. reflexivity. Qed.

Example strptime_bad_day : strptime_ymd "2024-02-30" = None.
Proof. reflexivity. Qed.

Example strptime_trailing : strptime_ymd "2024-01-08T00:00" = None.
Proof. reflexivity. Qed.

Example re_split_example :
  ClassSessionAdmin.re_split ",a,, b,"
  = [EmptyString; "a"; "b"; EmptyString]%string.
Proof. reflexivity. Qed.

(** ** Capacity guard *)

Section Capacity.

Lemma or_0_aggregate_Sum (xs : list Z) :
  or_0 (aggregate_Sum xs) = foldr Z.add 0 xs.
Proof.
  destruct xs as [|x xs]; [reflexivity|].
  unfold aggregate_Sum, or_0.
  destruct (Z.eqb_spec (foldr Z.add 0 (x :: xs)) 0) as [->|]; reflexivity.
Qed.

Lemma confirmed_sum_bookings (self : ClassSession.t) (tbl : list Booking.t) :
  foldr Z.add 0
    (Booking.quantity <$>
       filter (fun b => Booking.status b = CONFIRMED) (ClassSession.bookings self tbl))
  = committed_sum confirmed_only (ClassSession.id self) tbl.
Proof.
  unfold ClassSession.bookings.
  induction tbl as [|b tbl IH]; [reflexivity|].
  rewrite filter_cons. cbn [committed_sum].
  destruct (decide (Booking.session b = ClassSession.id self)) as [Hs|Hs].
  - rewrite filter_cons.
    destruct (Z.eqb_spec (Booking.session b) (ClassSession.id self)); [|contradiction].
    destruct (decide (Booking.status b = CONFIRMED)) as [Hc|Hc].
    + rewrite Hc. cbn. f_equal. exact IH.
    + destruct (Booking.status b); try contradiction; cbn; exact IH.
  - destruct (Z.eqb_spec (Booking.session b) (ClassSession.id self)); [contradiction|].
    cbn. exact IH.
Qed.

Lemma confirmed_sum_registrations (ev : Event.t) (tbl : list EventRegistration.t) :
  foldr Z.add 0
    (EventRegistration.quantity <$>
       filter (fun r => EventRegistration.status r = CONFIRMED) (Event.registrations ev tbl))
  = committed_sum_event confirmed_only (Event.id ev) tbl.
Proof.
  unfold Event.registrations.
  induction tbl as [|r tbl IH]; [reflexivity|].
  rewrite filter_cons. cbn [committed_sum_event].
  destruct (decide (EventRegistration.event r = Event.id ev)) as [Hs|Hs].
  - rewrite filter_cons.
    destruct (Z.eqb_spec (EventRegistration.event r) (Event.id ev)); [|contradiction].
    destruct (decide (EventRegistration.status r = CONFIRMED)) as [Hc|Hc].
    + rewrite Hc. cbn. f_equal. exact IH.
    + destruct (EventRegistration.status r); try contradiction; cbn; exact IH.
  - destruct (Z.eqb_spec (EventRegistration.event r) (Event.id ev)); [contradiction|].
    cbn. exact IH.
Qed.

Lemma spots_left_spec (self : ClassSession.t) (tbl : list Booking.t) :
  ClassSession.spots_left self tbl
  = Z.max (ClassSession.capacity self
           - committed_sum confirmed_only (ClassSession.id self) tbl) 0.
Proof.
  unfold ClassSession.spots_left.
  by rewrite or_0_aggregate_Sum, confirmed_sum_bookings.
Qed.

Lemma event_spots_left_spec (ev : Event.t) (tbl : list EventRegistration.t) :
  Event.spots_left ev tbl
  = if (Event.capacity ev <=? 0) || negb (Event.is_public ev) then None
    else Some (Z.max (Event.capacity ev
                      - committed_sum_event confirmed_only (Event.id ev) tbl) 0).
Proof.
  unfold Event.spots_left.
  by rewrite or_0_aggregate_Sum, confirmed_sum_registrations.
Qed.

Lemma committed_sum_filter (counted : Status -> bool) (sid : Z) (tbl : list Booking.t) :
  committed_sum counted sid (filter (fun b => counted (Booking.status b) = true) tbl)
  = committed_sum counted sid tbl.
Proof.
  induction tbl as [|b tbl IH]; [reflexivity|].
  rewrite filter_cons. cbn [committed_sum].
  destruct (decide (counted (Booking.status b) = true)) as [Hc|Hc].
  - cbn [committed_sum]. by rewrite IH.
  - apply not_true_is_false in Hc. rewrite Hc, andb_false_r. lia.
Qed.

Lemma committed_sum_event_filter (counted : Status -> bool) (eid : Z)
    (tbl : list EventRegistration.t) :
  committed_sum_event counted eid
    (filter (fun r => counted (EventRegistration.status r) = true) tbl)
  = committed_sum_event counted eid tbl.
Proof.
  induction tbl as [|r tbl IH]; [reflexivity|].
  rewrite filter_cons. cbn [committed_sum_event].
  destruct (decide (counted (EventRegistration.status r) = true)) as [Hc|Hc].
  - cbn [committed_sum_event]. by rewrite IH.
  - apply not_true_is_false in Hc. rewrite Hc, andb_false_r. lia.
Qed.

Lemma committed_sum_nonneg (counted : Status -> bool) (sid : Z) (tbl : list Booking.t) :
  Forall (fun b => 0 <= Booking.quantity b) tbl ->
  0 <= committed_sum counted sid tbl.
Proof.
  induction 1 as [|b tbl Hb _ IH]; cbn [committed_sum]; [lia|].
  destruct (_ && _); lia.
Qed.

End Capacity.

(** C1: [can_accept(q)] holds exactly when [q >= 1] and [spots_left >= q],
    where [spots_left] is [max(capacity - S, 0)] and [S] sums [quantity]
    over the CONFIRMED bookings of the slot. *)
Theorem can_accept_iff (self : ClassSession.t) (tbl : list Booking.t) (q : Z) :
  let S := committed_sum confirmed_only (ClassSession.id self) tbl in
  ClassSession.spots_left self tbl = Z.max (ClassSession.capacity self - S) 0
  /\ (ClassSession.can_accept self tbl q = true
      <-> 1 <= q /\ q <= Z.max (ClassSession.capacity self - S) 0).
Proof.
  intros S. split; [apply spots_left_spec|].
  unfold ClassSession.can_accept. rewrite spots_left_spec. fold S.
  rewrite andb_true_iff, Z.ltb_lt, Z.leb_le. lia.
Qed.

(** C4, as stated, fails: a PENDING booking is not part of the total the
    capacity computation uses.  On a one-place slot with one PENDING
    booking the PENDING-or-CONFIRMED total is 1, yet a place is left and a
    further booking is accepted. *)
Lemma pending_not_counted :
  committed_sum pending_or_confirmed (ClassSession.id one_place_slot) [pending_booking] = 1
  /\ ClassSession.spots_left one_place_slot [pending_booking] = 1
  /\ ClassSession.can_accept one_place_slot [pending_booking] 1 = true
  /\ ClassSession.spots_left one_place_slot [pending_booking]
     <> Z.max (ClassSession.capacity one_place_slot
               - committed_sum pending_or_confirmed (ClassSession.id one_place_slot)
                   [pending_booking]) 0.
Proof. repeat split; vm_compute; congruence. Qed.

(** C4, amended: exactly the CONFIRMED reservations count.  For class
    sessions and for events the committed total is the sum of [quantity]
    over the CONFIRMED reservations of the slot, and deleting every
    PENDING, CANCELLED and REFUNDED reservation changes neither
    [spots_left]. *)
Theorem only_confirmed_counts :
  (forall (self : ClassSession.t) (tbl : list Booking.t),
      ClassSession.spots_left self tbl
      = Z.max (ClassSession.capacity self
               - committed_sum confirmed_only (ClassSession.id self) tbl) 0
      /\ ClassSession.spots_left self tbl
         = ClassSession.spots_left self
             (filter (fun b => Booking.status b = CONFIRMED) tbl))
  /\ (forall (ev : Event.t) (tbl : list EventRegistration.t),
      Event.spots_left ev tbl
      = (if (Event.capacity ev <=? 0) || negb (Event.is_public ev) then None
         else Some (Z.max (Event.capacity ev
                           - committed_sum_event confirmed_only (Event.id ev) tbl) 0))
      /\ Event.spots_left ev tbl
         = Event.spots_left ev
             (filter (fun r => EventRegistration.status r = CONFIRMED) tbl)).
Proof.
  split.
  - intros self tbl. split; [apply spots_left_spec|].
    rewrite !spots_left_spec. do 2 f_equal.
    rewrite <- (committed_sum_filter confirmed_only _ tbl).
    f_equal. apply list_filter_iff. intros b.
    destruct (Booking.status b); cbn; split; congruence.
  - intros ev tbl. split; [apply event_spots_left_spec|].
    rewrite !event_spots_left_spec.
    rewrite <- (committed_sum_event_filter confirmed_only _ tbl).
    replace (filter (fun r => confirmed_only (EventRegistration.status r) = true) tbl)
      with (filter (fun r => EventRegistration.status r = CONFIRMED) tbl); [reflexivity|].
    apply list_filter_iff. intros r.
    destruct (EventRegistration.status r); cbn; split; congruence.
Qed.

(** C9: a public event with [capacity <= 0] accepts every positive
    quantity, whatever registrations exist. *)
Theorem unlimited_event_accepts
    (ev : Event.t) (tbl : list EventRegistration.t) (q : Z) :
  Event.event_type ev = PUBLIC ->
  Event.capacity ev <= 0 ->
  0 < q ->
  Event.can_accept ev tbl q = true.
Proof.
  intros _ Hcap _. unfold Event.can_accept.
  apply Z.leb_le in Hcap. rewrite Hcap.
  by rewrite orb_true_r.
Qed.

Lemma unlimited_event_accepts_witness :
  Event.can_accept open_event [big_registration] 3 = true.
Proof.
  apply unlimited_event_accepts; [reflexivity | vm_compute; discriminate | reflexivity].
Defined.

(** C10: a class session of capacity 0 has no spots left and accepts no
    quantity, whatever bookings exist ([quantity] is a
    [PositiveIntegerField], so no booking has a negative one). *)
Theorem zero_capacity_session_rejects
    (self : ClassSession.t) (tbl : list Booking.t) :
  ClassSession.capacity self = 0 ->
  Forall (fun b => 0 <= Booking.quantity b) tbl ->
  ClassSession.spots_left self tbl = 0
  /\ forall q, 1 <= q -> ClassSession.can_accept self tbl q = false.
Proof.
  intros Hcap Hq.
  pose proof (committed_sum_nonneg confirmed_only (ClassSession.id self) tbl Hq) as Hs.
  assert (ClassSession.spots_left self tbl = 0) as H0.
  { rewrite spots_left_spec, Hcap. lia. }
  split; [exact H0|].
  intros q Hq1. unfold ClassSession.can_accept. rewrite H0.
  apply andb_false_iff. right. apply Z.leb_gt. lia.
Qed.

Lemma zero_capacity_session_rejects_witness :
  ClassSession.spots_left closed_slot [confirmed_booking] = 0
  /\ forall q, 1 <= q -> ClassSession.can_accept closed_slot [confirmed_booking] q = false.
Proof.
  apply zero_capacity_session_rejects; [reflexivity|].
  repeat constructor. vm_compute. discriminate.
Defined.

(** ** Recurrence generation: the [while True] loop *)

Section RecurrenceLoop.

Variables (self : ClassSession.t) (end_date : date) (duration : timedelta)
          (skip_set : gset Z).

Let loop (fuel : nat) (dry_run : bool) :=
  ClassSession.recurrence_loop fuel self dry_run end_date duration skip_set.

(** One iteration, with the monad unfolded. *)
Lemma recurrence_loop_S fuel dry_run cursor c s (tbl : list ClassSession.t) :
  loop (S fuel) dry_run cursor c s tbl =
  match timedelta_weeks (ClassSession.recurrence_every_n_weeks self) with
  | Raise e => (Raised e, tbl)
  | Ok step =>
      match datetime_add cursor step with
      | Raise e => (Raised e, tbl)
      | Ok cur =>
          if end_date <? datetime_date cur then
            (Returned {| ClassSession.created := c; ClassSession.skipped := s;
                         ClassSession.reason := "ok" |}, tbl)
          else if bool_decide (datetime_date cur ∈ skip_set) then
            loop fuel dry_run cur c (s + 1) tbl
          else
            match datetime_add cur duration with
            | Raise e => (Raised e, tbl)
            | Ok end_dt =>
                if ClassSession.has_type_start (ClassSession.class_type self) cur tbl then
                  loop fuel dry_run cur c (s + 1) tbl
                else
                  loop fuel dry_run cur (c + 1) s
                       (if dry_run then tbl
                        else tbl ++ [ClassSession.occurrence self (ClassSession.fresh_id tbl)
                                                             cur end_dt])
            end
      end
  end.
Proof.
  unfold loop. cbn [ClassSession.recurrence_loop].
  unfold mbind, M_bind, lift, mret, M_ret,
    ClassSession.exists_type_start, ClassSession.objects_create.
  destruct (timedelta_weeks _) as [step|e]; [|reflexivity].
  destruct (datetime_add cursor step) as [cur|e]; [|reflexivity].
  destruct (end_date <? datetime_date cur); [reflexivity|].
  destruct (bool_decide _); [reflexivity|].
  destruct (datetime_add cur duration) as [end_dt|e]; [|reflexivity].
  destruct (ClassSession.has_type_start _ cur tbl) eqn:Hex; [reflexivity|].
  destruct dry_run; [reflexivity|].
  rewrite Hex. reflexivity.
Qed.

Lemma datetime_add_Ok t td r : datetime_add t td = Ok r -> r = t + td.
Proof. unfold datetime_add. destruct (valid_datetime _); congruence. Qed.

(** The loop only appends rows, and each of them belongs to the seed's
    series, lies outside the skip set and lasts [duration]. *)
Let made_by_loop := ClassSession.made_by self skip_set duration.

Lemma recurrence_loop_appends fuel dry_run :
  forall cursor c s (tbl : list ClassSession.t),
  exists new, snd (loop fuel dry_run cursor c s tbl) = tbl ++ new
              /\ Forall made_by_loop new.
Proof.
  induction fuel as [|fuel IH]; intros cursor c s tbl.
  { exists []. by rewrite app_nil_r. }
  rewrite recurrence_loop_S.
  assert (exists new : list ClassSession.t, (tbl = tbl ++ new) /\ Forall made_by_loop new) as Hnil.
  { exists []. by rewrite app_nil_r. }
  destruct (timedelta_weeks _) as [step|e]; [|exact Hnil].
  destruct (datetime_add cursor step) as [cur|e]; [|exact Hnil].
  destruct (end_date <? datetime_date cur); [exact Hnil|].
  destruct (bool_decide_reflect (datetime_date cur ∈ skip_set)) as [|Hskip]; [apply IH|].
  destruct (datetime_add cur duration) as [end_dt|e] eqn:Hend; [|exact Hnil].
  destruct (ClassSession.has_type_start _ cur tbl); [apply IH|].
  destruct dry_run; [apply IH|].
  destruct (IH cur (c + 1) s
              (tbl ++ [ClassSession.occurrence self (ClassSession.fresh_id tbl) cur end_dt]))
    as (new & Hnew & Hall).
  exists (ClassSession.occurrence self (ClassSession.fresh_id tbl) cur end_dt :: new).
  split.
  - rewrite Hnew, <- app_assoc. reflexivity.
  - constructor; [|exact Hall].
    apply datetime_add_Ok in Hend.
    split; [reflexivity|]. split; [exact Hskip|].
    cbn. unfold datetime_sub. lia.
Qed.

Lemma has_type_start_app ct st (l1 l2 : list ClassSession.t) :
  ClassSession.has_type_start ct st (l1 ++ l2)
  = ClassSession.has_type_start ct st l1 || ClassSession.has_type_start ct st l2.
Proof. apply existsb_app. Qed.

Lemma has_type_start_occurrence key cur end_dt :
  ClassSession.has_type_start (ClassSession.class_type self) cur
    [ClassSession.occurrence self key cur end_dt] = true.
Proof.
  unfold ClassSession.has_type_start. cbn. by rewrite !Z.eqb_refl.
Qed.

(** A second pass over a table that holds every (series, start) key of
    the table left by a first, persisting pass finds each position
    skipped or existing: it creates nothing and skips what the first
    pass skipped or created. *)
Lemma recurrence_loop_rerun fuel :
  forall cursor c s (tbl tbl1 : list ClassSession.t) r,
  loop fuel false cursor c s tbl = (Returned r, tbl1) ->
  forall (tblX : list ClassSession.t) dry_run c' s',
  (forall st, ClassSession.has_type_start (ClassSession.class_type self) st tbl1 = true ->
              ClassSession.has_type_start (ClassSession.class_type self) st tblX = true) ->
  ClassSession.reason r = "ok"%string
  /\ loop fuel dry_run cursor c' s' tblX
     = (Returned {| ClassSession.created := c';
                    ClassSession.skipped := s' + (ClassSession.created r - c)
                                            + (ClassSession.skipped r - s);
                    ClassSession.reason := "ok" |}, tblX).
Proof.
  induction fuel as [|fuel IH]; intros cursor c s tbl tbl1 r Hrun tblX dry_run c' s' Hsub.
  { discriminate Hrun. }
  rewrite recurrence_loop_S in Hrun. rewrite recurrence_loop_S.
  destruct (timedelta_weeks _) as [step|e]; [|discriminate Hrun].
  destruct (datetime_add cursor step) as [cur|e]; [|discriminate Hrun].
  destruct (end_date <? datetime_date cur).
  { injection Hrun as <- <-. cbn. split; [reflexivity|]. do 3 f_equal. lia. }
  destruct (bool_decide (datetime_date cur ∈ skip_set)).
  { destruct (IH _ _ _ _ _ _ Hrun tblX dry_run c' (s' + 1) Hsub) as [Hok ->].
    split; [exact Hok|]. do 3 f_equal. lia. }
  destruct (datetime_add cur duration) as [end_dt|e]; [|discriminate Hrun].
  pose proof (recurrence_loop_appends fuel false cur) as Happ.
  destruct (ClassSession.has_type_start _ cur tbl) eqn:Hex.
  - specialize (Happ c (s + 1) tbl) as (new & Hnew & _).
    unfold loop in Hnew, Hrun. rewrite Hrun in Hnew. cbn in Hnew.
    rewrite (Hsub cur).
    2:{ rewrite Hnew, has_type_start_app, Hex. reflexivity. }
    destruct (IH _ _ _ _ _ _ Hrun tblX dry_run c' (s' + 1) Hsub) as [Hok ->].
    split; [exact Hok|]. do 3 f_equal. lia.
  - specialize (Happ (c + 1) s
                  (tbl ++ [ClassSession.occurrence self (ClassSession.fresh_id tbl) cur end_dt]))
      as (new & Hnew & _).
    unfold loop in Hnew, Hrun. rewrite Hrun in Hnew. cbn in Hnew.
    rewrite (Hsub cur).
    2:{ rewrite Hnew, !has_type_start_app, has_type_start_occurrence.
        by rewrite orb_true_r. }
    destruct (IH _ _ _ _ _ _ Hrun tblX dry_run c' (s' + 1) Hsub) as [Hok ->].
    split; [exact Hok|]. do 3 f_equal. lia.
Qed.

End RecurrenceLoop.

(** The four ways one iteration can go. *)
Section LoopSteps.

Variables (self : ClassSession.t) (end_date : date) (duration : timedelta)
          (skip_set : gset Z) (fuel : nat) (dry_run : bool)
          (cursor cur step : Z) (c s : Z) (tbl : list ClassSession.t).

Hypothesis Hstep : timedelta_weeks (ClassSession.recurrence_every_n_weeks self) = Ok step.
Hypothesis Hcur : datetime_add cursor step = Ok cur.

Lemma loop_break_step :
  end_date < datetime_date cur ->
  ClassSession.recurrence_loop (S fuel) self dry_run end_date duration skip_set cursor c s tbl
  = (Returned {| ClassSession.created := c; ClassSession.skipped := s;
                 ClassSession.reason := "ok" |}, tbl).
Proof.
  intros Hlt. rewrite recurrence_loop_S, Hstep, Hcur.
  apply Z.ltb_lt in Hlt. by rewrite Hlt.
Qed.

Lemma loop_skip_step :
  datetime_date cur <= end_date ->
  datetime_date cur ∈ skip_set ->
  ClassSession.recurrence_loop (S fuel) self dry_run end_date duration skip_set cursor c s tbl
  = ClassSession.recurrence_loop fuel self dry_run end_date duration skip_set cur c (s + 1) tbl.
Proof.
  intros Hle Hin. rewrite recurrence_loop_S, Hstep, Hcur.
  apply Z.ltb_ge in Hle. rewrite Hle.
  by rewrite bool_decide_eq_true_2.
Qed.

Lemma loop_exists_step end_dt :
  datetime_date cur <= end_date ->
  datetime_date cur ∉ skip_set ->
  datetime_add cur duration = Ok end_dt ->
  ClassSession.has_type_start (ClassSession.class_type self) cur tbl = true ->
  ClassSession.recurrence_loop (S fuel) self dry_run end_date duration skip_set cursor c s tbl
  = ClassSession.recurrence_loop fuel self dry_run end_date duration skip_set cur c (s + 1) tbl.
Proof.
  intros Hle Hin Hend Hex. rewrite recurrence_loop_S, Hstep, Hcur.
  apply Z.ltb_ge in Hle. rewrite Hle.
  rewrite bool_decide_eq_false_2 by exact Hin.
  by rewrite Hend, Hex.
Qed.

Lemma loop_create_step end_dt :
  datetime_date cur <= end_date ->
  datetime_date cur ∉ skip_set ->
  datetime_add cur duration = Ok end_dt ->
  ClassSession.has_type_start (ClassSession.class_type self) cur tbl = false ->
  ClassSession.recurrence_loop (S fuel) self dry_run end_date duration skip_set cursor c s tbl
  = ClassSession.recurrence_loop fuel self dry_run end_date duration skip_set cur (c + 1) s
      (if dry_run then tbl
       else tbl ++ [ClassSession.occurrence self (ClassSession.fresh_id tbl) cur end_dt]).
Proof.
  intros Hle Hin Hend Hex. rewrite recurrence_loop_S, Hstep, Hcur.
  apply Z.ltb_ge in Hle. rewrite Hle.
  rewrite bool_decide_eq_false_2 by exact Hin.
  by rewrite Hend, Hex.
Qed.

End LoopSteps.

(** ** Recurrence generation: [generate_recurrences] *)

Section GenerateRecurrences.

Variables (seed : ClassSession.t) (default_weeks : Z).

Let duration := datetime_sub (ClassSession.end_datetime seed) (ClassSession.start_datetime seed).
Let start_date := datetime_date (ClassSession.start_datetime seed).

(** With [recurrence_until] set, the call is the loop up to that date. *)
Lemma generate_recurrences_until fuel dry_run (tbl : list ClassSession.t) d :
  ClassSession.recurrence_enabled seed = true ->
  ClassSession.recurrence_until seed = Some d ->
  start_date <= d ->
  ClassSession.generate_recurrences fuel seed default_weeks dry_run tbl
  = ClassSession.recurrence_loop fuel seed dry_run d duration
      (ClassSession._skip_set seed) (ClassSession.start_datetime seed) 0 0 tbl.
Proof.
  intros Hen Hu Hle. unfold ClassSession.generate_recurrences.
  rewrite Hen, Hu. cbn [negb].
  unfold mbind, M_bind, mret, M_ret.
  apply Z.ltb_ge in Hle. unfold start_date in Hle. by rewrite Hle.
Qed.

(** Without it, the loop runs up to [default_weeks] after the seed's day. *)
Lemma generate_recurrences_default fuel dry_run (tbl : list ClassSession.t) horizon d :
  ClassSession.recurrence_enabled seed = true ->
  ClassSession.recurrence_until seed = None ->
  timedelta_weeks default_weeks = Ok horizon ->
  date_add start_date horizon = Ok d ->
  start_date <= d ->
  ClassSession.generate_recurrences fuel seed default_weeks dry_run tbl
  = ClassSession.recurrence_loop fuel seed dry_run d duration
      (ClassSession._skip_set seed) (ClassSession.start_datetime seed) 0 0 tbl.
Proof.
  intros Hen Hu Hh Hd Hle. unfold ClassSession.generate_recurrences.
  rewrite Hen, Hu. cbn [negb].
  unfold mbind, M_bind, mret, M_ret, lift. rewrite Hh.
  unfold start_date in Hd, Hle. rewrite Hd.
  apply Z.ltb_ge in Hle. by rewrite Hle.
Qed.

(** The call either leaves through one of its two early exits, raises
    while it computes the end date, or is the loop; which of the three
    does not depend on the table or on [dry_run]. *)
Lemma generate_recurrences_cases :
  (exists r, ClassSession.created r = 0 /\ ClassSession.skipped r = 0
             /\ forall fuel dry_run (tbl : list ClassSession.t),
                 ClassSession.generate_recurrences fuel seed default_weeks dry_run tbl
                 = (Returned r, tbl))
  \/ (exists e, forall fuel dry_run (tbl : list ClassSession.t),
                ClassSession.generate_recurrences fuel seed default_weeks dry_run tbl
                = (Raised e, tbl))
  \/ (exists d, start_date <= d
                /\ forall fuel dry_run (tbl : list ClassSession.t),
                    ClassSession.generate_recurrences fuel seed default_weeks dry_run tbl
                    = ClassSession.recurrence_loop fuel seed dry_run d duration
                        (ClassSession._skip_set seed)
                        (ClassSession.start_datetime seed) 0 0 tbl).
Proof.
  unfold ClassSession.generate_recurrences.
  destruct (ClassSession.recurrence_enabled seed); cbn [negb].
  2:{ left. eexists. repeat split; reflexivity. }
  unfold mbind, M_bind, mret, M_ret, lift.
  destruct (ClassSession.recurrence_until seed) as [d|].
  - destruct (d <? datetime_date (ClassSession.start_datetime seed)) eqn:Hlt.
    + left. eexists. repeat split; reflexivity.
    + right. right. exists d. apply Z.ltb_ge in Hlt. split; [exact Hlt|reflexivity].
  - destruct (timedelta_weeks default_weeks) as [horizon|e].
    2:{ right. left. by exists e. }
    destruct (date_add _ horizon) as [d|e].
    2:{ right. left. by exists e. }
    destruct (d <? datetime_date (ClassSession.start_datetime seed)) eqn:Hlt.
    + left. eexists. repeat split; reflexivity.
    + right. right. exists d. apply Z.ltb_ge in Hlt. split; [exact Hlt|reflexivity].
Qed.

(** Whatever the outcome, rows are only appended, and every appended row
    is in the seed's series and has the seed's duration. *)
Lemma generate_recurrences_appends fuel dry_run (tbl : list ClassSession.t) :
  exists new,
    snd (ClassSession.generate_recurrences fuel seed default_weeks dry_run tbl) = tbl ++ new
    /\ Forall (ClassSession.made_by seed (ClassSession._skip_set seed) duration) new.
Proof.
  destruct generate_recurrences_cases
    as [(r & _ & _ & ->) | [(e & ->) | (d & _ & ->)]].
  - exists []. by rewrite app_nil_r.
  - exists []. by rewrite app_nil_r.
  - apply recurrence_loop_appends.
Qed.

End GenerateRecurrences.

(** ** The batch action [generate_repeats] *)

Section GenerateRepeats.

Variables (interval : Z) (skip_set : gset Z).

Lemma repeats_of_seed_appends (seed : ClassSession.t) duration (is_ : list Z) :
  forall c s (tbl : list ClassSession.t),
  exists new,
    snd (ClassSessionAdmin.repeats_of_seed seed interval skip_set duration is_ c s tbl)
    = tbl ++ new
    /\ Forall (ClassSession.made_by seed skip_set duration) new.
Proof.
  induction is_ as [|i is_ IH]; intros c s tbl.
  { exists []. by rewrite app_nil_r. }
  assert (exists new : list ClassSession.t,
             (tbl = tbl ++ new)
             /\ Forall (ClassSession.made_by seed skip_set duration) new) as Hnil.
  { exists []. by rewrite app_nil_r. }
  cbn [ClassSessionAdmin.repeats_of_seed].
  unfold mbind, M_bind, lift, mret, M_ret,
    ClassSession.exists_type_start, ClassSession.objects_create.
  destruct (timedelta_weeks _) as [step|e]; [|exact Hnil].
  destruct (datetime_add _ step) as [start_dt|e]; [|exact Hnil].
  destruct (bool_decide_reflect (datetime_date start_dt ∈ skip_set)) as [|Hskip]; [apply IH|].
  destruct (datetime_add start_dt duration) as [end_dt|e] eqn:Hend; [|exact Hnil].
  destruct (ClassSession.has_type_start _ start_dt tbl) eqn:Hex; [apply IH|].
  rewrite Hex.
  match goal with
  | |- context [ClassSessionAdmin.repeats_of_seed _ _ _ _ _ ?c' ?s' (tbl ++ [?row])] =>
      destruct (IH c' s' (tbl ++ [row])) as (new & Hnew & Hall); exists (row :: new)
  end.
  split.
  - rewrite Hnew, <- app_assoc. reflexivity.
  - constructor; [|exact Hall].
    apply datetime_add_Ok in Hend.
    split; [reflexivity|]. split; [exact Hskip|].
    cbn. unfold datetime_sub. lia.
Qed.

Lemma repeats_of_queryset_appends occurrences (queryset : list ClassSession.t) :
  forall c s (tbl : list ClassSession.t),
  exists new,
    snd (ClassSessionAdmin.repeats_of_queryset queryset occurrences interval skip_set c s tbl)
    = tbl ++ new
    /\ Forall (ClassSessionAdmin.made_from skip_set queryset) new.
Proof.
  induction queryset as [|seed queryset IH]; intros c s tbl.
  { exists []. by rewrite app_nil_r. }
  cbn [ClassSessionAdmin.repeats_of_queryset].
  unfold mbind, M_bind.
  match goal with
  | |- context [ClassSessionAdmin.repeats_of_seed seed interval skip_set ?d ?is_ c s tbl] =>
      destruct (repeats_of_seed_appends seed d is_ c s tbl) as (new1 & Hnew1 & Hall1);
      destruct (ClassSessionAdmin.repeats_of_seed seed interval skip_set d is_ c s tbl)
        as [[[c1 s1]|e|] tbl1]
  end; cbn [snd] in Hnew1; subst tbl1.
  - destruct (IH c1 s1 (tbl ++ new1)) as (new2 & Hnew2 & Hall2).
    exists (new1 ++ new2). split.
    + rewrite Hnew2, <- app_assoc. reflexivity.
    + apply Forall_app. split.
      * eapply Forall_impl; [exact Hall1|]. intros r Hr. exists seed.
        split; [apply list_elem_of_here|exact Hr].
      * eapply Forall_impl; [exact Hall2|]. intros r (sd & Hin & Hr). exists sd.
        split; [by apply list_elem_of_further|exact Hr].
  - exists new1. split; [reflexivity|].
    eapply Forall_impl; [exact Hall1|]. intros r Hr. exists seed.
    split; [apply list_elem_of_here|exact Hr].
  - exists new1. split; [reflexivity|].
    eapply Forall_impl; [exact Hall1|]. intros r Hr. exists seed.
    split; [apply list_elem_of_here|exact Hr].
Qed.

End GenerateRepeats.

Lemma generate_repeats_appends form (queryset tbl : list ClassSession.t) :
  exists new,
    snd (ClassSessionAdmin.generate_repeats form queryset tbl) = tbl ++ new
    /\ Forall (ClassSessionAdmin.made_from (ClassSessionAdmin.parse_skips (ClassSessionAdmin.skip_dates form))
                         queryset) new.
Proof.
  unfold ClassSessionAdmin.generate_repeats.
  destruct (ClassSessionAdmin.is_valid form) as [[occurrences interval]|].
  2:{ exists []. by rewrite app_nil_r. }
  unfold mbind, M_bind.
  destruct (repeats_of_queryset_appends interval
              (ClassSessionAdmin.parse_skips (ClassSessionAdmin.skip_dates form))
              occurrences queryset 0 0 tbl) as (new & Hnew & Hall).
  destruct (ClassSessionAdmin.repeats_of_queryset _ _ _ _ _ _ _) as [[[c1 s1]|e|] tbl1];
    cbn [snd] in Hnew; subst tbl1; exists new; split; try reflexivity; exact Hall.
Qed.

(** C7: a row created by recurrence generation, by the per-seed
    generator as by the batch action, lasts exactly as long as its seed:
    whatever the outcome of the call, the table it leaves is the initial
    table followed by rows of the seed's series whose [end - start] is
    the seed's [end - start]. *)
Theorem generated_duration_preserved :
  (forall fuel (seed : ClassSession.t) default_weeks dry_run (tbl : list ClassSession.t),
      exists new,
        snd (ClassSession.generate_recurrences fuel seed default_weeks dry_run tbl) = tbl ++ new
        /\ Forall (fun r =>
                     ClassSession.class_type r = ClassSession.class_type seed
                     /\ datetime_sub (ClassSession.end_datetime r) (ClassSession.start_datetime r)
                        = datetime_sub (ClassSession.end_datetime seed)
                                       (ClassSession.start_datetime seed)) new)
  /\ (forall form (queryset tbl : list ClassSession.t),
      exists new,
        snd (ClassSessionAdmin.generate_repeats form queryset tbl) = tbl ++ new
        /\ Forall (fun r => exists seed,
                     seed ∈ queryset
                     /\ ClassSession.class_type r = ClassSession.class_type seed
                     /\ datetime_sub (ClassSession.end_datetime r) (ClassSession.start_datetime r)
                        = datetime_sub (ClassSession.end_datetime seed)
                                       (ClassSession.start_datetime seed)) new).
Proof.
  split.
  - intros fuel seed default_weeks dry_run tbl.
    destruct (generate_recurrences_appends seed default_weeks fuel dry_run tbl)
      as (new & Hnew & Hall).
    exists new. split; [exact Hnew|].
    eapply Forall_impl; [exact Hall|]. intros r (Hct & _ & Hd). by split.
  - intros form queryset tbl.
    destruct (generate_repeats_appends form queryset tbl) as (new & Hnew & Hall).
    exists new. split; [exact Hnew|].
    eapply Forall_impl; [exact Hall|]. intros r (seed & Hin & Hct & _ & Hd).
    exists seed. by repeat split.
Qed.

(** ** Re-running the generator *)

(** C3, as stated, fails for a dry run: nothing is persisted, so the
    second dry run over the weekly seed counts the same two occurrences
    as the first. *)
Lemma dry_run_rerun_counts_again :
  let run := ClassSession.generate_recurrences 10 weekly_seed 12 true in
  run [weekly_seed]
  = (Returned {| ClassSession.created := 2; ClassSession.skipped := 1;
                 ClassSession.reason := "ok" |}, [weekly_seed])
  /\ run (snd (run [weekly_seed]))
     = (Returned {| ClassSession.created := 2; ClassSession.skipped := 1;
                    ClassSession.reason := "ok" |}, [weekly_seed])
  /\ ~ (forall r2 tbl2, run (snd (run [weekly_seed])) = (Returned r2, tbl2) ->
                        ClassSession.created r2 = 0).
Proof.
  assert (ClassSession.generate_recurrences 10 weekly_seed 12 true [weekly_seed]
          = (Returned {| ClassSession.created := 2; ClassSession.skipped := 1;
                         ClassSession.reason := "ok" |}, [weekly_seed])) as Hrun
    by (vm_compute; reflexivity).
  cbn zeta. rewrite !Hrun. cbn [snd]. rewrite Hrun.
  do 2 (split; [reflexivity|]).
  intros Hall. specialize (Hall _ _ eq_refl). discriminate Hall.
Qed.

(** C3, amended: when a persisting run ([dry_run = False]) of
    [generate_recurrences] returns, a second run with the same parameters
    on the table it left returns [created = 0], counts as skipped what
    the first run skipped or created, and leaves the table unchanged. *)
Theorem rerun_creates_nothing fuel (seed : ClassSession.t) default_weeks
    (tbl tbl1 : list ClassSession.t) r1 :
  ClassSession.generate_recurrences fuel seed default_weeks false tbl = (Returned r1, tbl1) ->
  ClassSession.generate_recurrences fuel seed default_weeks false tbl1
  = (Returned {| ClassSession.created := 0;
                 ClassSession.skipped := ClassSession.skipped r1 + ClassSession.created r1;
                 ClassSession.reason := ClassSession.reason r1 |}, tbl1).
Proof.
  intros Hrun.
  destruct (generate_recurrences_cases seed default_weeks)
    as [(r & Hc & Hs & Hall) | [(e & Hall) | (d & _ & Hall)]];
    rewrite Hall in Hrun; rewrite Hall.
  - (* disabled or empty range: both runs leave at once *)
    injection Hrun as <- <-. destruct r as [c s rs]. cbn in *. subst. reflexivity.
  - discriminate Hrun.
  - (* the loop: every position is skipped or found on the second pass *)
    destruct (recurrence_loop_rerun seed d _ _ fuel _ 0 0 tbl tbl1 r1 Hrun tbl1 false 0 0)
      as [Hok ->]; [auto|].
    rewrite Hok. do 3 f_equal. lia.
Qed.

Lemma rerun_creates_nothing_witness :
  ClassSession.generate_recurrences 10 weekly_seed 12 false weekly_after_first_run
  = (Returned {| ClassSession.created := 0; ClassSession.skipped := 3;
                 ClassSession.reason := "ok" |}, weekly_after_first_run).
Proof.
  apply (rerun_creates_nothing 10 weekly_seed 12 [weekly_seed] weekly_after_first_run
           {| ClassSession.created := 2; ClassSession.skipped := 1;
              ClassSession.reason := "ok" |}).
  vm_compute. reflexivity.
Defined.

(** ** Termination of the loop, and the interval of zero weeks *)

Lemma timedelta_weeks_Ok w step :
  timedelta_weeks w = Ok step -> step = 7 * w * us_per_day.
Proof. unfold timedelta_weeks. destruct (_ <? _); congruence. Qed.

Lemma datetime_date_add_weeks t w :
  datetime_date (t + 7 * w * us_per_day) = datetime_date t + 7 * w.
Proof. unfold datetime_date. by rewrite Z.div_add. Qed.

Section LoopTermination.

Variables (self : ClassSession.t) (end_date : date) (duration : timedelta)
          (skip_set : gset Z) (dry_run : bool).

(** With an interval of at least one week the cursor's day moves on by
    at least seven days per iteration, so the days left up to [end_date]
    bound the number of iterations. *)
Lemma recurrence_loop_terminates :
  1 <= ClassSession.recurrence_every_n_weeks self ->
  forall fuel cursor c s (tbl : list ClassSession.t),
  datetime_date cursor <= end_date ->
  end_date - datetime_date cursor < Z.of_nat fuel ->
  fst (ClassSession.recurrence_loop fuel self dry_run end_date duration skip_set
         cursor c s tbl) <> Diverged.
Proof.
  intros Hn. induction fuel as [|fuel IH]; intros cursor c s tbl Hle Hfuel; [lia|].
  rewrite recurrence_loop_S.
  destruct (timedelta_weeks _) as [step|e] eqn:Hstep; [|discriminate].
  destruct (datetime_add cursor step) as [cur|e] eqn:Hcur; [|discriminate].
  apply timedelta_weeks_Ok in Hstep. apply datetime_add_Ok in Hcur.
  assert (datetime_date cur = datetime_date cursor
                              + 7 * ClassSession.recurrence_every_n_weeks self) as Hdate.
  { rewrite Hcur, Hstep. apply datetime_date_add_weeks. }
  destruct (Z.ltb_spec end_date (datetime_date cur)) as [|Hle']; [discriminate|].
  destruct (bool_decide _); [apply IH; lia|].
  destruct (datetime_add cur duration) as [end_dt|e]; [|discriminate].
  destruct (ClassSession.has_type_start _ cur tbl); apply IH; lia.
Qed.

(** With an interval of zero the cursor stays where it is: the loop
    raises or diverges, it never returns. *)
Lemma recurrence_loop_zero_interval :
  ClassSession.recurrence_every_n_weeks self = 0 ->
  forall fuel cursor c s (tbl tbl' : list ClassSession.t) r,
  valid_datetime cursor = true ->
  datetime_date cursor <= end_date ->
  ClassSession.recurrence_loop fuel self dry_run end_date duration skip_set cursor c s tbl
  <> (Returned r, tbl').
Proof.
  intros Hn. induction fuel as [|fuel IH]; intros cursor c s tbl tbl' r Hvalid Hle;
    [discriminate|].
  rewrite recurrence_loop_S, Hn.
  change (timedelta_weeks 0) with (Ok (A := Z) 0).
  unfold datetime_add at 1. rewrite Z.add_0_r, Hvalid.
  destruct (Z.ltb_spec end_date (datetime_date cursor)) as [|_]; [lia|].
  destruct (bool_decide _); [by apply IH|].
  destruct (datetime_add cursor duration) as [end_dt|e]; [|discriminate].
  destruct (ClassSession.has_type_start _ cursor tbl); by apply IH.
Qed.

(** When moreover the slot at the cursor exists, as the saved seed does,
    every iteration finds it and skips: the loop diverges. *)
Lemma recurrence_loop_zero_interval_diverges end_dt (tbl : list ClassSession.t) cursor :
  ClassSession.recurrence_every_n_weeks self = 0 ->
  valid_datetime cursor = true ->
  datetime_date cursor <= end_date ->
  datetime_add cursor duration = Ok end_dt ->
  ClassSession.has_type_start (ClassSession.class_type self) cursor tbl = true ->
  forall fuel c s,
  ClassSession.recurrence_loop fuel self dry_run end_date duration skip_set cursor c s tbl
  = (Diverged, tbl).
Proof.
  intros Hn Hvalid Hle Hend Hex. induction fuel as [|fuel IH]; intros c s; [reflexivity|].
  rewrite recurrence_loop_S, Hn.
  change (timedelta_weeks 0) with (Ok (A := Z) 0).
  unfold datetime_add at 1. rewrite Z.add_0_r, Hvalid.
  destruct (Z.ltb_spec end_date (datetime_date cursor)) as [|_]; [lia|].
  destruct (bool_decide _); [apply IH|].
  rewrite Hend, Hex. apply IH.
Qed.

End LoopTermination.

(** For an interval of at least one week, enough fuel gives an outcome. *)
Lemma generate_recurrences_terminates (seed : ClassSession.t) default_weeks dry_run
    (tbl : list ClassSession.t) :
  1 <= ClassSession.recurrence_every_n_weeks seed ->
  exists fuel,
    fst (ClassSession.generate_recurrences fuel seed default_weeks dry_run tbl) <> Diverged.
Proof.
  intros Hn.
  destruct (generate_recurrences_cases seed default_weeks)
    as [(r & _ & _ & Hall) | [(e & Hall) | (d & Hle & Hall)]].
  - exists O. by rewrite Hall.
  - exists O. by rewrite Hall.
  - exists (S (Z.to_nat (d - datetime_date (ClassSession.start_datetime seed)))).
    rewrite Hall. apply recurrence_loop_terminates; [exact Hn|exact Hle|lia].
Qed.

(** The batch action has no unbounded loop: it never runs out of fuel,
    and it refuses an interval of zero before it touches the table. *)
Lemma repeats_of_seed_total seed interval skip_set duration (is_ : list Z) :
  forall c s (tbl : list ClassSession.t),
  fst (ClassSessionAdmin.repeats_of_seed seed interval skip_set duration is_ c s tbl)
  <> Diverged.
Proof.
  induction is_ as [|i is_ IH]; intros c s tbl; [discriminate|].
  cbn [ClassSessionAdmin.repeats_of_seed].
  unfold mbind, M_bind, lift, mret, M_ret,
    ClassSession.exists_type_start, ClassSession.objects_create.
  destruct (timedelta_weeks _) as [step|e]; [|discriminate].
  destruct (datetime_add _ step) as [start_dt|e]; [|discriminate].
  destruct (bool_decide _); [apply IH|].
  destruct (datetime_add start_dt duration) as [end_dt|e]; [|discriminate].
  destruct (ClassSession.has_type_start _ start_dt tbl) eqn:Hex; [apply IH|].
  rewrite Hex. apply IH.
Qed.

Lemma generate_repeats_total form (queryset tbl : list ClassSession.t) :
  fst (ClassSessionAdmin.generate_repeats form queryset tbl) <> Diverged.
Proof.
  unfold ClassSessionAdmin.generate_repeats.
  destruct (ClassSessionAdmin.is_valid form) as [[occurrences interval]|]; [|discriminate].
  unfold mbind, M_bind.
  assert (forall c s (tbl : list ClassSession.t),
             fst (ClassSessionAdmin.repeats_of_queryset queryset occurrences interval
                    (ClassSessionAdmin.parse_skips (ClassSessionAdmin.skip_dates form)) c s tbl)
             <> Diverged) as Hq.
  { clear tbl. induction queryset as [|seed queryset IH]; intros c s tbl; [discriminate|].
    cbn [ClassSessionAdmin.repeats_of_queryset]. unfold mbind, M_bind.
    match goal with
    | |- context [ClassSessionAdmin.repeats_of_seed seed ?i ?k ?d ?is_ c s tbl] =>
        pose proof (repeats_of_seed_total seed i k d is_ c s tbl) as Hs;
        destruct (ClassSessionAdmin.repeats_of_seed seed i k d is_ c s tbl)
          as [[[c1 s1]|e|] tbl1]
    end; [apply IH|discriminate|exact Hs]. }
  specialize (Hq 0 0 tbl).
  destruct (ClassSessionAdmin.repeats_of_queryset _ _ _ _ _ _ _) as [[[c1 s1]|e|] tbl1];
    [discriminate|discriminate|by destruct Hq].
Qed.

Lemma generate_repeats_rejects_zero occ raw (queryset tbl : list ClassSession.t) :
  ClassSessionAdmin.generate_repeats
    {| ClassSessionAdmin.occurrences := occ; ClassSessionAdmin.every_n_weeks := Some 0;
       ClassSessionAdmin.skip_dates := raw |} queryset tbl
  = (Returned (ClassSessionAdmin.ERROR "Please provide valid repeat options."), tbl).
Proof.
  unfold ClassSessionAdmin.generate_repeats, ClassSessionAdmin.is_valid. cbn.
  destruct occ as [occ|]; [|reflexivity].
  by rewrite andb_false_r.
Qed.

(** C5: the per-seed generator does not reject or clamp an interval of
    zero.  For the saved seed with [recurrence_every_n_weeks = 0] the
    loop is entered and the cursor never moves: whatever the fuel, the
    call has produced no outcome. *)
Theorem zero_interval_never_terminates :
  forall fuel,
    ClassSession.generate_recurrences fuel zero_interval_seed 12 false [zero_interval_seed]
    = (Diverged, [zero_interval_seed]).
Proof.
  intros fuel.
  rewrite (generate_recurrences_default zero_interval_seed 12 fuel false _
             (7 * 12 * us_per_day) (datetime_date (at_time 2024 1 1 0 0) + 84));
    [|reflexivity..|vm_compute; discriminate].
  eapply (recurrence_loop_zero_interval_diverges zero_interval_seed _ _ _ false
            (at_time 2024 1 1 1 0)); try reflexivity.
  vm_compute. discriminate.
Qed.

(** ** The weekly example *)

Lemma has_type_start_only_seed (seed : ClassSession.t) (tbl : list ClassSession.t) cur :
  (forall r, r ∈ tbl -> ClassSession.class_type r = ClassSession.class_type seed -> r = seed) ->
  cur <> ClassSession.start_datetime seed ->
  ClassSession.has_type_start (ClassSession.class_type seed) cur tbl = false.
Proof.
  intros Hno Hne. unfold ClassSession.has_type_start.
  destruct (existsb _ tbl) eqn:Hex; [|reflexivity].
  apply existsb_exists in Hex as (r & Hin & Hr).
  apply andb_true_iff in Hr as [Hct Hst].
  apply Z.eqb_eq in Hct, Hst. apply list_elem_of_In in Hin.
  rewrite (Hno r Hin Hct) in Hst. congruence.
Qed.

(** C2: the seed of 2024-01-01 00:00-01:00, weekly until 2024-01-22 and
    skipping 2024-01-08, on a table that holds no other slot of its
    series: the generator inserts the occurrences of 2024-01-15 and
    2024-01-22 and returns created = 2, skipped = 1, reason "ok". *)
Theorem weekly_example (seed : ClassSession.t) (tbl : list ClassSession.t)
    (fuel : nat) (default_weeks : Z) :
  ClassSession.start_datetime seed = at_time 2024 1 1 0 0 ->
  ClassSession.end_datetime seed = at_time 2024 1 1 1 0 ->
  ClassSession.recurrence_enabled seed = true ->
  ClassSession.recurrence_every_n_weeks seed = 1 ->
  ClassSession.recurrence_until seed = mk_date 2024 1 22 ->
  ClassSession.recurrence_skips seed = [JStr "2024-01-08"] ->
  (forall r, r ∈ tbl -> ClassSession.class_type r = ClassSession.class_type seed -> r = seed) ->
  (4 <= fuel)%nat ->
  let first := ClassSession.occurrence seed (ClassSession.fresh_id tbl)
                 (at_time 2024 1 15 0 0) (at_time 2024 1 15 1 0) in
  let second := ClassSession.occurrence seed (ClassSession.fresh_id (tbl ++ [first]))
                  (at_time 2024 1 22 0 0) (at_time 2024 1 22 1 0) in
  ClassSession.generate_recurrences fuel seed default_weeks false tbl
  = (Returned {| ClassSession.created := 2; ClassSession.skipped := 1;
                 ClassSession.reason := "ok" |},
     tbl ++ [first; second]).
Proof.
  intros Hs He Hen Hn Hu Hsk Hno Hfuel first second.
  do 4 (destruct fuel as [|fuel]; [lia|]). clear Hfuel.
  rewrite (generate_recurrences_until seed default_weeks _ false tbl 738907);
    [|exact Hen|rewrite Hu; reflexivity|rewrite Hs; vm_compute; discriminate].
  assert (timedelta_weeks (ClassSession.recurrence_every_n_weeks seed)
          = Ok (7 * 1 * us_per_day)) as Hstep by (rewrite Hn; reflexivity).
  assert (ClassSession._skip_set seed = {[ 738893 ]}) as Hset.
  { unfold ClassSession._skip_set. rewrite Hsk. cbn [foldl].
    change (strptime_ymd "2024-01-08") with (Some 738893). apply (left_id_L ∅ (∪)). }
  rewrite Hset, Hs, He.
  (* 2024-01-08: in the skip set *)
  rewrite (loop_skip_step seed _ _ _ _ _ _ (at_time 2024 1 8 0 0) _ _ _ _ Hstep);
    [|reflexivity|vm_compute; discriminate|by apply elem_of_singleton].
  (* 2024-01-15: created *)
  rewrite (loop_create_step seed _ _ _ _ _ (at_time 2024 1 8 0 0) (at_time 2024 1 15 0 0) _ _ _ _ Hstep
             eq_refl (at_time 2024 1 15 1 0));
    [|vm_compute; discriminate
     |intros Hin; apply elem_of_singleton in Hin; discriminate Hin
     |reflexivity
     |apply has_type_start_only_seed; [exact Hno|rewrite Hs; discriminate]].
  (* 2024-01-22: created *)
  rewrite (loop_create_step seed _ _ _ _ _ (at_time 2024 1 15 0 0) (at_time 2024 1 22 0 0) _ _ _ _ Hstep
             eq_refl (at_time 2024 1 22 1 0));
    [|vm_compute; discriminate
     |intros Hin; apply elem_of_singleton in Hin; discriminate Hin
     |reflexivity|].
  2:{ rewrite has_type_start_app, has_type_start_only_seed;
        [|exact Hno|rewrite Hs; discriminate].
      unfold ClassSession.has_type_start. cbn [existsb orb].
      apply orb_false_intro; [|reflexivity].
      apply andb_false_intro2. reflexivity. }
  (* 2024-01-29: past the end date *)
  rewrite (loop_break_step seed _ _ _ _ _ _ (at_time 2024 1 29 0 0) _ _ _ _ Hstep);
    [|reflexivity|vm_compute; reflexivity].
  rewrite <- app_assoc. reflexivity.
Qed.

Lemma weekly_example_witness :
  ClassSession.generate_recurrences 4 weekly_seed 12 false [weekly_seed]
  = (Returned {| ClassSession.created := 2; ClassSession.skipped := 1;
                 ClassSession.reason := "ok" |},
     [weekly_seed;
      ClassSession.occurrence weekly_seed 2 (at_time 2024 1 15 0 0) (at_time 2024 1 15 1 0);
      ClassSession.occurrence weekly_seed 3 (at_time 2024 1 22 0 0) (at_time 2024 1 22 1 0)]).
Proof.
  apply (weekly_example weekly_seed [weekly_seed] 4 12); try reflexivity.
  intros r Hr _. by apply list_elem_of_singleton in Hr.
Defined.

(** ** Request validation *)

(** C8: a booking attempt on a class session, or a registration attempt
    on an event, whose start lies before the current time is rejected by
    the form's [clean] with a form-wide [ValidationError]. *)
Theorem past_slot_rejected :
  (forall (session : ClassSession.t) quantity now (bookings : list Booking.t),
      ClassSession.start_datetime session < now ->
      BookingCreateForm.clean (Some session) quantity now bookings
      = ValidationError "This class has already started or finished.")
  /\ (forall (event : Event.t) start quantity now (regs : list EventRegistration.t),
      Event.start_datetime event = Some start ->
      start < now ->
      exists msg, EventRegistrationForm.clean (Some event) quantity now regs
                  = ValidationError msg).
Proof.
  split.
  - intros session quantity now bookings Hpast.
    unfold BookingCreateForm.clean.
    apply Z.ltb_lt in Hpast. by rewrite Hpast.
  - intros event start quantity now regs Hstart Hpast.
    unfold EventRegistrationForm.clean.
    destruct (Event.is_public event); cbn [negb]; [|by eexists].
    rewrite Hstart. apply Z.ltb_lt in Hpast. rewrite Hpast. by eexists.
Qed.

Lemma past_slot_rejected_witness :
  BookingCreateForm.clean (Some weekly_seed) (Some 1) first_of_june []
  = ValidationError "This class has already started or finished."
  /\ exists msg, EventRegistrationForm.clean (Some past_event) (Some 1) first_of_june []
                 = ValidationError msg.
Proof.
  split.
  - apply (proj1 past_slot_rejected). reflexivity.
  - apply (proj2 past_slot_rejected past_event (at_time 2024 5 1 18 0)); reflexivity.
Defined.

(** ** The calendar feed *)

Section CalendarFeedFacts.

Variable fromisoformat : string -> option iso_datetime.
Variable make_aware : Z -> datetime.

(** Without range parameters the feed is the default one. *)
Lemma calendar_events_default now (objects : list ClassSession.t) :
  calendar_events fromisoformat make_aware None None now objects
  = future_only_feed now objects.
Proof.
  unfold calendar_events, future_only_feed. cbn [truthy].
  rewrite list_filter_filter. do 2 f_equal.
  apply list_filter_iff. intros s. tauto.
Qed.

(** An unparseable [start]: the [ValueError] is swallowed, and since the
    parameter was present the future-only filter was not applied either;
    [end] is not looked at.  The feed holds every published slot. *)
Lemma calendar_events_malformed_start a sp end_param now (objects : list ClassSession.t) :
  fromisoformat (String a sp) = None ->
  calendar_events fromisoformat make_aware (Some (String a sp)) end_param now objects
  = to_feed_event <$>
      order_by_start (filter (fun s => ClassSession.is_published s = true) objects).
Proof.
  intros Hbad. unfold calendar_events, parse_aware. cbn [truthy]. by rewrite Hbad.
Qed.

(** An unparseable [end] after a good [start]: the start bound stays
    applied, the future-only filter is not. *)
Lemma calendar_events_malformed_end a sp b ep start_dt now (objects : list ClassSession.t) :
  parse_aware fromisoformat make_aware (String a sp) = Some start_dt ->
  fromisoformat (String b ep) = None ->
  calendar_events fromisoformat make_aware (Some (String a sp)) (Some (String b ep)) now objects
  = to_feed_event <$>
      order_by_start
        (filter (fun s => start_dt <= ClassSession.start_datetime s)
           (filter (fun s => ClassSession.is_published s = true) objects)).
Proof.
  intros Hgood Hbad. unfold calendar_events. cbn [truthy]. rewrite Hgood.
  unfold parse_aware. by rewrite Hbad.
Qed.

End CalendarFeedFacts.

(** C6: a request with [start=not-a-date], made on 2024-06-01 against a
    table holding one published slot of 2024-01-01, is answered with
    that past slot, whereas the future-only feed is empty. *)
Theorem malformed_start_not_future_only
    (fromisoformat : string -> option iso_datetime) (make_aware : Z -> datetime) :
  fromisoformat "not-a-date" = None ->
  calendar_events fromisoformat make_aware (Some "not-a-date"%string) None
    first_of_june [weekly_seed]
  = [to_feed_event weekly_seed]
  /\ future_only_feed first_of_june [weekly_seed] = [].
Proof.
  intros Hbad. split; [|reflexivity].
  by rewrite calendar_events_malformed_start.
Qed.

Lemma malformed_start_not_future_only_witness :
  calendar_events fromisoformat_date_only make_aware_utc (Some "not-a-date"%string) None
    first_of_june [weekly_seed]
  = [to_feed_event weekly_seed]
  /\ future_only_feed first_of_june [weekly_seed] = [].
Proof.
  apply malformed_start_not_future_only. reflexivity.
Defined.

(** * Further properties of the recurrence generators *)

Lemma us_per_day_pos : 0 < us_per_day.
Proof. reflexivity. Qed.

Lemma timedelta_weeks_Raise w e : timedelta_weeks w = Raise e -> e = OverflowError.
Proof. unfold timedelta_weeks. destruct (_ <? _); congruence. Qed.

Lemma datetime_add_Raise t td e : datetime_add t td = Raise e -> e = OverflowError.
Proof. unfold datetime_add. destruct (valid_datetime _); congruence. Qed.

Lemma date_add_Raise d td e : date_add d td = Raise e -> e = OverflowError.
Proof. unfold date_add. destruct (valid_date _); congruence. Qed.

Lemma datetime_add_valid t td r : datetime_add t td = Ok r -> valid_datetime r = true.
Proof.
  unfold datetime_add. destruct (valid_datetime (t + td)) eqn:Hv; [|discriminate].
  intros [= <-]. exact Hv.
Qed.

(** ** A dry run *)

Section DryRun.

Variables (self : ClassSession.t) (end_date : date) (duration : timedelta)
          (skip_set : gset Z).

Local Abbreviation loop fuel dry :=
  (ClassSession.recurrence_loop fuel self dry end_date duration skip_set).
Local Abbreviation n := (ClassSession.recurrence_every_n_weeks self).
Local Abbreviation has st tbl :=
  (ClassSession.has_type_start (ClassSession.class_type self) st tbl).

(** A dry run leaves the table as it found it. *)
Lemma recurrence_loop_dry_table fuel :
  forall cursor c s (tbl : list ClassSession.t),
  snd (loop fuel true cursor c s tbl) = tbl.
Proof.
  induction fuel as [|fuel IH]; intros cursor c s tbl; [reflexivity|].
  rewrite recurrence_loop_S.
  destruct (timedelta_weeks _) as [step|e]; [|reflexivity].
  destruct (datetime_add cursor step) as [cur|e]; [|reflexivity].
  destruct (end_date <? datetime_date cur); [reflexivity|].
  destruct (bool_decide _); [apply IH|].
  destruct (datetime_add cur duration) as [end_dt|e]; [|reflexivity].
  destruct (has cur tbl); apply IH.
Qed.

(** With an interval of zero, once an iteration has been survived the
    outcome no longer depends on the counters, the table or the mode. *)
Lemma recurrence_loop_zero_interval_outcome :
  n = 0 ->
  forall fuel cursor,
  valid_datetime cursor = true ->
  datetime_date cursor <= end_date ->
  forall dry c s (tbl : list ClassSession.t) dry' c' s' (tbl' : list ClassSession.t),
  fst (loop fuel dry cursor c s tbl) = fst (loop fuel dry' cursor c' s' tbl').
Proof.
  intros Hn. induction fuel as [|fuel IH]; intros cursor Hvalid Hle
    dry c s tbl dry' c' s' tbl'; [reflexivity|].
  rewrite !recurrence_loop_S, Hn.
  change (timedelta_weeks 0) with (Ok (A := Z) 0).
  unfold datetime_add at 1 3. rewrite Z.add_0_r, Hvalid.
  destruct (Z.ltb_spec end_date (datetime_date cursor)) as [|_]; [lia|].
  destruct (bool_decide _); [by apply IH|].
  destruct (datetime_add cursor duration) as [end_dt|e]; [|reflexivity].
  destruct (has cursor tbl), (has cursor tbl'); by apply IH.
Qed.

(** The outcome of a dry pass over [tblD] is that of a persisting pass
    over [tblR] when the two tables agree on every start the cursor has
    yet to reach. *)
Lemma recurrence_loop_dry_agrees fuel :
  forall cursor c s (tblD tblR : list ClassSession.t),
  (forall st, 0 < (st - cursor) * n -> has st tblR = has st tblD) ->
  fst (loop fuel true cursor c s tblD) = fst (loop fuel false cursor c s tblR).
Proof.
  pose proof us_per_day_pos as Hpos.
  induction fuel as [|fuel IH]; intros cursor c s tblD tblR Hagree; [reflexivity|].
  rewrite !recurrence_loop_S.
  destruct (timedelta_weeks _) as [step|e] eqn:Hstep; [|reflexivity].
  destruct (datetime_add cursor step) as [cur|e] eqn:Hcur; [|reflexivity].
  apply timedelta_weeks_Ok in Hstep.
  pose proof (datetime_add_valid _ _ _ Hcur) as Hvalid.
  apply datetime_add_Ok in Hcur.
  destruct (Z.ltb_spec end_date (datetime_date cur)) as [|Hle]; [reflexivity|].
  destruct (decide (n = 0)) as [Hz|Hnz].
  - (* the cursor does not move *)
    destruct (bool_decide _);
      [by apply recurrence_loop_zero_interval_outcome|].
    destruct (datetime_add cur duration) as [end_dt|e]; [|reflexivity].
    destruct (has cur tblD), (has cur tblR);
      by apply recurrence_loop_zero_interval_outcome.
  - assert (0 < n * n) as Hsq by nia.
    assert (forall st, 0 < (st - cur) * n -> 0 < (st - cursor) * n) as Hfar.
    { intros st Hst. subst cur step. nia. }
    destruct (bool_decide _).
    { apply IH. intros st Hst. by apply Hagree, Hfar. }
    destruct (datetime_add cur duration) as [end_dt|e]; [|reflexivity].
    rewrite (Hagree cur) by (subst cur step; nia).
    destruct (has cur tblD).
    { apply IH. intros st Hst. by apply Hagree, Hfar. }
    apply IH. intros st Hst.
    rewrite has_type_start_app, (Hagree st) by (by apply Hfar).
    unfold ClassSession.has_type_start at 2. cbn.
    destruct (Z.eqb_spec cur st) as [->|_]; [lia|].
    by rewrite andb_false_r, !orb_false_r.
Qed.

End DryRun.

(** X1: a dry run writes nothing and has the outcome of the persisting
    run: the same counts when that one returns, the same exception when
    it raises, and no outcome where it has none. *)
Theorem dry_run_predicts (fuel : nat) (seed : ClassSession.t) (default_weeks : Z)
    (tbl : list ClassSession.t) :
  snd (ClassSession.generate_recurrences fuel seed default_weeks true tbl) = tbl
  /\ fst (ClassSession.generate_recurrences fuel seed default_weeks true tbl)
     = fst (ClassSession.generate_recurrences fuel seed default_weeks false tbl).
Proof.
  destruct (generate_recurrences_cases seed default_weeks)
    as [(r & _ & _ & Hall) | [(e & Hall) | (d & _ & Hall)]]; rewrite !Hall.
  - by split.
  - by split.
  - split; [apply recurrence_loop_dry_table|].
    by apply recurrence_loop_dry_agrees.
Qed.

(** ** What the loop writes and counts *)

Lemma has_type_start_true ct st (tbl : list ClassSession.t) :
  ClassSession.has_type_start ct st tbl = true
  <-> (ct, st) ∈ (fun r => (ClassSession.class_type r, ClassSession.start_datetime r)) <$> tbl.
Proof.
  unfold ClassSession.has_type_start. rewrite existsb_exists, list_elem_of_fmap. split.
  - intros (r & Hin & Hr). apply andb_true_iff in Hr as [H1 H2].
    apply Z.eqb_eq in H1, H2. exists r. split; [by rewrite H1, H2|by apply list_elem_of_In].
  - intros (r & Heq & Hin). injection Heq as -> ->. exists r.
    split; [by apply list_elem_of_In|by rewrite !Z.eqb_refl].
Qed.

(** Appending a row whose key is not in the table keeps the keys unique. *)
Lemma unique_snoc (tbl : list ClassSession.t) (r : ClassSession.t) :
  ClassSession.unique_classsession_type_start tbl ->
  ClassSession.has_type_start (ClassSession.class_type r) (ClassSession.start_datetime r) tbl
  = false ->
  ClassSession.unique_classsession_type_start (tbl ++ [r]).
Proof.
  unfold ClassSession.unique_classsession_type_start. intros Hu Hex.
  rewrite fmap_app. apply NoDup_app. split; [exact Hu|]. split.
  - intros k Hk Hk'. cbn in Hk'. apply list_elem_of_singleton in Hk'. subst k.
    apply has_type_start_true in Hk. congruence.
  - cbn. apply NoDup_singleton.
Qed.

Section LoopInvariants.

Variables (self : ClassSession.t) (end_date : date) (duration : timedelta)
          (skip_set : gset Z).

Local Abbreviation loop fuel dry :=
  (ClassSession.recurrence_loop fuel self dry end_date duration skip_set).
Local Abbreviation n := (ClassSession.recurrence_every_n_weeks self).
Local Abbreviation step := (7 * ClassSession.recurrence_every_n_weeks self * us_per_day).

(** The existence check comes first, so the insertion is never refused. *)
Lemma recurrence_loop_no_integrity_error fuel dry :
  forall cursor c s (tbl : list ClassSession.t),
  fst (loop fuel dry cursor c s tbl) <> Raised IntegrityError.
Proof.
  induction fuel as [|fuel IH]; intros cursor c s tbl; [discriminate|].
  rewrite recurrence_loop_S.
  destruct (timedelta_weeks _) as [st|e] eqn:Hstep.
  2:{ apply timedelta_weeks_Raise in Hstep. by subst e. }
  destruct (datetime_add cursor st) as [cur|e] eqn:Hcur.
  2:{ apply datetime_add_Raise in Hcur. by subst e. }
  destruct (end_date <? datetime_date cur); [discriminate|].
  destruct (bool_decide _); [apply IH|].
  destruct (datetime_add cur duration) as [end_dt|e] eqn:Hend.
  2:{ apply datetime_add_Raise in Hend. by subst e. }
  destruct (ClassSession.has_type_start _ cur tbl); apply IH.
Qed.

Lemma recurrence_loop_unique fuel dry :
  forall cursor c s (tbl : list ClassSession.t),
  ClassSession.unique_classsession_type_start tbl ->
  ClassSession.unique_classsession_type_start (snd (loop fuel dry cursor c s tbl)).
Proof.
  induction fuel as [|fuel IH]; intros cursor c s tbl Hu; [exact Hu|].
  rewrite recurrence_loop_S.
  destruct (timedelta_weeks _) as [st|e]; [|exact Hu].
  destruct (datetime_add cursor st) as [cur|e]; [|exact Hu].
  destruct (end_date <? datetime_date cur); [exact Hu|].
  destruct (bool_decide _); [by apply IH|].
  destruct (datetime_add cur duration) as [end_dt|e]; [|exact Hu].
  destruct (ClassSession.has_type_start _ cur tbl) eqn:Hex; [by apply IH|].
  destruct dry; [by apply IH|].
  apply IH. by apply unique_snoc.
Qed.

Local Abbreviation written_after :=
  (ClassSession.written_after self end_date duration skip_set).

Lemma recurrence_loop_rows fuel dry :
  forall cursor c s (tbl : list ClassSession.t),
  exists new, snd (loop fuel dry cursor c s tbl) = tbl ++ new
              /\ Forall (written_after cursor) new.
Proof.
  induction fuel as [|fuel IH]; intros cursor c s tbl.
  { exists []. by rewrite app_nil_r. }
  assert (exists new : list ClassSession.t,
             (tbl = tbl ++ new) /\ Forall (written_after cursor) new) as Hnil.
  { exists []. by rewrite app_nil_r. }
  rewrite recurrence_loop_S.
  destruct (timedelta_weeks _) as [st|e] eqn:Hstep; [|exact Hnil].
  destruct (datetime_add cursor st) as [cur|e] eqn:Hcur; [|exact Hnil].
  apply timedelta_weeks_Ok in Hstep. apply datetime_add_Ok in Hcur. subst st.
  assert (forall r, written_after cur r -> written_after cursor r) as Hshift.
  { intros r (k & key & Hk & Hr & Hle & Hskip). exists (k + 1), key.
    replace (cursor + (k + 1) * step) with (cur + k * step) by lia.
    repeat split; [lia|exact Hr|exact Hle|exact Hskip]. }
  assert (forall c' s' (tbl' : list ClassSession.t) (pre : list ClassSession.t),
             tbl' = tbl ++ pre -> Forall (written_after cursor) pre ->
             exists new, snd (loop fuel dry cur c' s' tbl') = tbl ++ new
                         /\ Forall (written_after cursor) new) as Hrec.
  { intros c' s' tbl' pre -> Hpre.
    destruct (IH cur c' s' (tbl ++ pre)) as (new & Hnew & Hall).
    exists (pre ++ new). split; [by rewrite Hnew, app_assoc|].
    apply Forall_app. split; [exact Hpre|].
    eapply Forall_impl; [exact Hall|exact Hshift]. }
  destruct (Z.ltb_spec end_date (datetime_date cur)) as [|Hle]; [exact Hnil|].
  destruct (bool_decide_reflect (datetime_date cur ∈ skip_set)) as [|Hskip].
  { apply (Hrec _ _ _ []); [by rewrite app_nil_r|constructor]. }
  destruct (datetime_add cur duration) as [end_dt|e] eqn:Hend; [|exact Hnil].
  apply datetime_add_Ok in Hend.
  destruct (ClassSession.has_type_start _ cur tbl).
  { apply (Hrec _ _ _ []); [by rewrite app_nil_r|constructor]. }
  destruct dry.
  { apply (Hrec _ _ _ []); [by rewrite app_nil_r|constructor]. }
  eapply Hrec; [reflexivity|].
  constructor; [|constructor].
  exists 1, (ClassSession.fresh_id tbl).
  replace (cursor + 1 * step) with cur by lia. subst end_dt.
  repeat split; [lia|exact Hle|exact Hskip].
Qed.

(** A persisting pass that returns reports as created exactly the
    number of rows it wrote. *)
Lemma recurrence_loop_created_length fuel :
  forall cursor c s (tbl tbl' : list ClassSession.t) r,
  loop fuel false cursor c s tbl = (Returned r, tbl') ->
  Z.of_nat (length tbl') = Z.of_nat (length tbl) + (ClassSession.created r - c).
Proof.
  induction fuel as [|fuel IH]; intros cursor c s tbl tbl' r Hrun; [discriminate Hrun|].
  rewrite recurrence_loop_S in Hrun.
  destruct (timedelta_weeks _) as [st|e]; [|discriminate Hrun].
  destruct (datetime_add cursor st) as [cur|e]; [|discriminate Hrun].
  destruct (end_date <? datetime_date cur).
  { injection Hrun as <- <-. cbn. lia. }
  destruct (bool_decide _); [by apply IH in Hrun|].
  destruct (datetime_add cur duration) as [end_dt|e]; [|discriminate Hrun].
  destruct (ClassSession.has_type_start _ cur tbl); [by apply IH in Hrun|].
  apply IH in Hrun. rewrite length_app in Hrun. cbn in Hrun. lia.
Qed.

(** Every interval up to [end_date] is counted once, as created or as
    skipped. *)
Lemma recurrence_loop_counts fuel dry :
  1 <= n ->
  forall cursor c s (tbl tbl' : list ClassSession.t) r,
  datetime_date cursor <= end_date ->
  loop fuel dry cursor c s tbl = (Returned r, tbl') ->
  ClassSession.created r + ClassSession.skipped r
  = c + s + (end_date - datetime_date cursor) / (7 * n).
Proof.
  intros Hn. induction fuel as [|fuel IH]; intros cursor c s tbl tbl' r Hle Hrun;
    [discriminate Hrun|].
  rewrite recurrence_loop_S in Hrun.
  destruct (timedelta_weeks _) as [st|e] eqn:Hstep; [|discriminate Hrun].
  destruct (datetime_add cursor st) as [cur|e] eqn:Hcur; [|discriminate Hrun].
  apply timedelta_weeks_Ok in Hstep. apply datetime_add_Ok in Hcur.
  assert (datetime_date cur = datetime_date cursor + 7 * n) as Hdate.
  { rewrite Hcur, Hstep. apply datetime_date_add_weeks. }
  destruct (Z.ltb_spec end_date (datetime_date cur)) as [Hlt|Hle'].
  { injection Hrun as <- <-. cbn. rewrite Z.div_small; lia. }
  assert ((end_date - datetime_date cursor) / (7 * n)
          = (end_date - datetime_date cur) / (7 * n) + 1) as Hdiv.
  { rewrite <- Z.div_add by lia. f_equal. lia. }
  rewrite Hdiv.
  destruct (bool_decide _); [apply IH in Hrun; lia|].
  destruct (datetime_add cur duration) as [end_dt|e]; [|discriminate Hrun].
  destruct (ClassSession.has_type_start _ cur tbl); apply IH in Hrun; lia.
Qed.

End LoopInvariants.

(** ** [generate_recurrences]: what it writes and reports *)

Lemma date_add_weeks_Ok d w horizon o :
  timedelta_weeks w = Ok horizon -> date_add d horizon = Ok o -> o = d + 7 * w.
Proof.
  intros Hh Ho. apply timedelta_weeks_Ok in Hh. subst horizon.
  unfold date_add in Ho. destruct (valid_date _); [|discriminate].
  injection Ho as <-. unfold timedelta_days. by rewrite Z.div_mul.
Qed.

(** The three ways of a call, with the end date made explicit. *)
Lemma generate_recurrences_cases_end (seed : ClassSession.t) (default_weeks : Z) :
  (exists r, ClassSession.created r = 0 /\ ClassSession.skipped r = 0
             /\ ClassSession.reason r <> "ok"%string
             /\ forall fuel dry_run (tbl : list ClassSession.t),
                 ClassSession.generate_recurrences fuel seed default_weeks dry_run tbl
                 = (Returned r, tbl))
  \/ (forall fuel dry_run (tbl : list ClassSession.t),
        ClassSession.generate_recurrences fuel seed default_weeks dry_run tbl
        = (Raised OverflowError, tbl))
  \/ (ClassSession.recurrence_enabled seed = true
      /\ datetime_date (ClassSession.start_datetime seed)
         <= ClassSession.end_date_of seed default_weeks
      /\ forall fuel dry_run (tbl : list ClassSession.t),
          ClassSession.generate_recurrences fuel seed default_weeks dry_run tbl
          = ClassSession.recurrence_loop fuel seed dry_run
              (ClassSession.end_date_of seed default_weeks)
              (datetime_sub (ClassSession.end_datetime seed)
                            (ClassSession.start_datetime seed))
              (ClassSession._skip_set seed)
              (ClassSession.start_datetime seed) 0 0 tbl).
Proof.
  unfold ClassSession.generate_recurrences, ClassSession.end_date_of.
  destruct (ClassSession.recurrence_enabled seed); cbn [negb].
  2:{ left. exists {| ClassSession.created := 0; ClassSession.skipped := 0;
                      ClassSession.reason := "disabled" |}.
      repeat split. discriminate. }
  unfold mbind, M_bind, mret, M_ret, lift.
  destruct (ClassSession.recurrence_until seed) as [d|].
  - destruct (d <? datetime_date (ClassSession.start_datetime seed)) eqn:Hlt.
    + left. exists {| ClassSession.created := 0; ClassSession.skipped := 0;
                      ClassSession.reason := "empty-range" |}.
      repeat split. discriminate.
    + right. right. apply Z.ltb_ge in Hlt. split; [reflexivity|]. split; [exact Hlt|reflexivity].
  - destruct (timedelta_weeks default_weeks) as [horizon|e] eqn:Hh.
    2:{ apply timedelta_weeks_Raise in Hh. subst e. right. by left. }
    destruct (date_add _ horizon) as [d|e] eqn:Hd.
    2:{ apply date_add_Raise in Hd. subst e. right. by left. }
    rewrite <- (date_add_weeks_Ok _ _ _ _ Hh Hd).
    destruct (d <? datetime_date (ClassSession.start_datetime seed)) eqn:Hlt.
    + left. exists {| ClassSession.created := 0; ClassSession.skipped := 0;
                      ClassSession.reason := "empty-range" |}.
      repeat split. discriminate.
    + right. right. apply Z.ltb_ge in Hlt. split; [reflexivity|]. split; [exact Hlt|reflexivity].
Qed.

(** X2: every row [generate_recurrences] writes is the seed's copy moved
    a positive number of intervals on (same weekday and time, same
    duration, non-schedule fields copied, recurrence fields at their
    defaults), on a day up to the end date (inclusive) and outside the
    skip set; nothing else is written and no row is changed. *)
Theorem generated_rows (fuel : nat) (seed : ClassSession.t) (default_weeks : Z)
    (dry_run : bool) (tbl : list ClassSession.t) :
  exists new,
    snd (ClassSession.generate_recurrences fuel seed default_weeks dry_run tbl) = tbl ++ new
    /\ Forall (ClassSession.written_after seed
                 (ClassSession.end_date_of seed default_weeks)
                 (datetime_sub (ClassSession.end_datetime seed)
                               (ClassSession.start_datetime seed))
                 (ClassSession._skip_set seed)
                 (ClassSession.start_datetime seed)) new.
Proof.
  destruct (generate_recurrences_cases_end seed default_weeks)
    as [(r & _ & _ & _ & ->) | [-> | (_ & _ & ->)]].
  - exists []. by rewrite app_nil_r.
  - exists []. by rewrite app_nil_r.
  - apply recurrence_loop_rows.
Qed.

(** X3: a generated occurrence is not itself a seed: whatever row a
    call has written, running the generator on that row returns
    "disabled" and writes nothing. *)
Theorem generated_rows_are_not_seeds (fuel : nat) (seed : ClassSession.t)
    (default_weeks : Z) (dry_run : bool) (tbl : list ClassSession.t) :
  exists new,
    snd (ClassSession.generate_recurrences fuel seed default_weeks dry_run tbl) = tbl ++ new
    /\ Forall (fun r =>
                 forall fuel' default_weeks' dry_run' (tbl' : list ClassSession.t),
                   ClassSession.generate_recurrences fuel' r default_weeks' dry_run' tbl'
                   = (Returned {| ClassSession.created := 0; ClassSession.skipped := 0;
                                  ClassSession.reason := "disabled" |}, tbl')) new.
Proof.
  destruct (generate_recurrences_cases_end seed default_weeks)
    as [(r & _ & _ & _ & ->) | [-> | (_ & _ & ->)]].
  - exists []. by rewrite app_nil_r.
  - exists []. by rewrite app_nil_r.
  - destruct (recurrence_loop_rows seed (ClassSession.end_date_of seed default_weeks)
                (datetime_sub (ClassSession.end_datetime seed)
                              (ClassSession.start_datetime seed))
                (ClassSession._skip_set seed) fuel dry_run
                (ClassSession.start_datetime seed) 0 0 tbl) as (new & Hnew & Hall).
    exists new. split; [exact Hnew|].
    eapply Forall_impl; [exact Hall|].
    intros r (k & key & _ & -> & _) fuel' default_weeks' dry_run' tbl'. reflexivity.
Qed.

(** X4: when a persisting call returns, the [created] it reports is the
    number of rows it has added to the table. *)
Theorem created_is_rows_written (fuel : nat) (seed : ClassSession.t) (default_weeks : Z)
    (tbl tbl' : list ClassSession.t) (r : ClassSession.counts) :
  ClassSession.generate_recurrences fuel seed default_weeks false tbl = (Returned r, tbl') ->
  Z.of_nat (length tbl') = Z.of_nat (length tbl) + ClassSession.created r.
Proof.
  destruct (generate_recurrences_cases_end seed default_weeks)
    as [(r0 & Hc & _ & _ & Hall) | [Hall | (_ & _ & Hall)]]; rewrite Hall; intros Hrun.
  - injection Hrun as <- <-. lia.
  - discriminate Hrun.
  - apply recurrence_loop_created_length in Hrun. lia.
Qed.

Lemma created_is_rows_written_witness :
  Z.of_nat (length weekly_after_first_run) = Z.of_nat (length [weekly_seed]) + 2.
Proof.
  apply (created_is_rows_written 10 weekly_seed 12 [weekly_seed] weekly_after_first_run
           {| ClassSession.created := 2; ClassSession.skipped := 1;
              ClassSession.reason := "ok" |}).
  vm_compute. reflexivity.
Defined.

(** X5: for an interval of at least one week, a call that goes through
    the loop counts every interval up to the end date exactly once:
    [created + skipped] is the number of whole intervals between the
    seed's day and the end date. *)
Theorem every_interval_counted (fuel : nat) (seed : ClassSession.t) (default_weeks : Z)
    (dry_run : bool) (tbl tbl' : list ClassSession.t) (r : ClassSession.counts) :
  1 <= ClassSession.recurrence_every_n_weeks seed ->
  ClassSession.generate_recurrences fuel seed default_weeks dry_run tbl = (Returned r, tbl') ->
  ClassSession.reason r = "ok"%string ->
  ClassSession.created r + ClassSession.skipped r
  = (ClassSession.end_date_of seed default_weeks
     - datetime_date (ClassSession.start_datetime seed))
    / (7 * ClassSession.recurrence_every_n_weeks seed).
Proof.
  intros Hn.
  destruct (generate_recurrences_cases_end seed default_weeks)
    as [(r0 & _ & _ & Hno & Hall) | [Hall | (_ & Hle & Hall)]]; rewrite Hall; intros Hrun Hok.
  - injection Hrun as <- <-. contradiction.
  - discriminate Hrun.
  - by apply recurrence_loop_counts in Hrun.
Qed.

Lemma every_interval_counted_witness :
  2 + 1 = (ClassSession.end_date_of weekly_seed 12
           - datetime_date (ClassSession.start_datetime weekly_seed)) / (7 * 1).
Proof.
  apply (every_interval_counted 10 weekly_seed 12 false [weekly_seed] weekly_after_first_run
           {| ClassSession.created := 2; ClassSession.skipped := 1;
              ClassSession.reason := "ok" |}).
  - reflexivity.
  - vm_compute. reflexivity.
  - reflexivity.
Defined.

(** X6: for an interval of at least one week the generator terminates:
    as many iterations as there are days from the seed's day to the end
    date, plus one, are enough for an outcome. *)
Theorem generator_terminates (fuel : nat) (seed : ClassSession.t) (default_weeks : Z)
    (dry_run : bool) (tbl : list ClassSession.t) :
  1 <= ClassSession.recurrence_every_n_weeks seed ->
  ClassSession.end_date_of seed default_weeks
  - datetime_date (ClassSession.start_datetime seed) < Z.of_nat fuel ->
  fst (ClassSession.generate_recurrences fuel seed default_weeks dry_run tbl) <> Diverged.
Proof.
  intros Hn Hfuel.
  destruct (generate_recurrences_cases_end seed default_weeks)
    as [(r0 & _ & _ & _ & Hall) | [Hall | (_ & Hle & Hall)]]; rewrite Hall.
  - discriminate.
  - discriminate.
  - by apply recurrence_loop_terminates.
Qed.

Lemma generator_terminates_witness :
  fst (ClassSession.generate_recurrences 22 weekly_seed 12 false [weekly_seed]) <> Diverged.
Proof.
  apply generator_terminates; [reflexivity|vm_compute; reflexivity].
Defined.

(** ** The batch action, one occurrence at a time *)

Section BatchSteps.

Variables (interval : Z) (skip_set : gset Z).

Local Abbreviation of_seed seed duration :=
  (ClassSessionAdmin.repeats_of_seed seed interval skip_set duration).
Local Abbreviation of_queryset queryset occurrences :=
  (ClassSessionAdmin.repeats_of_queryset queryset occurrences interval skip_set).

Lemma repeats_of_seed_cons (seed : ClassSession.t) duration i (is_ : list Z) c s
    (tbl : list ClassSession.t) :
  of_seed seed duration (i :: is_) c s tbl =
  match timedelta_weeks (interval * i) with
  | Raise e => (Raised e, tbl)
  | Ok step =>
      match datetime_add (ClassSession.start_datetime seed) step with
      | Raise e => (Raised e, tbl)
      | Ok start_dt =>
          if bool_decide (datetime_date start_dt ∈ skip_set) then
            of_seed seed duration is_ c (s + 1) tbl
          else
            match datetime_add start_dt duration with
            | Raise e => (Raised e, tbl)
            | Ok end_dt =>
                if ClassSession.has_type_start (ClassSession.class_type seed) start_dt tbl
                then of_seed seed duration is_ c (s + 1) tbl
                else of_seed seed duration is_ (c + 1) s
                       (tbl ++ [ClassSession.occurrence seed (ClassSession.fresh_id tbl)
                                                             start_dt end_dt])
            end
      end
  end.
Proof.
  cbn [ClassSessionAdmin.repeats_of_seed].
  unfold mbind, M_bind, lift, mret, M_ret,
    ClassSession.exists_type_start, ClassSession.objects_create.
  destruct (timedelta_weeks _) as [step|e]; [|reflexivity].
  destruct (datetime_add _ step) as [start_dt|e]; [|reflexivity].
  destruct (bool_decide _); [reflexivity|].
  destruct (datetime_add start_dt duration) as [end_dt|e]; [|reflexivity].
  destruct (ClassSession.has_type_start _ start_dt tbl) eqn:Hex; [reflexivity|].
  by rewrite Hex.
Qed.

Lemma repeats_of_queryset_cons (seed : ClassSession.t) (queryset : list ClassSession.t)
    occurrences c s (tbl : list ClassSession.t) :
  of_queryset (seed :: queryset) occurrences c s tbl =
  match of_seed seed (datetime_sub (ClassSession.end_datetime seed)
                                   (ClassSession.start_datetime seed))
                (seqZ 1 occurrences) c s tbl with
  | (Returned cs, tbl1) => of_queryset queryset occurrences cs.1 cs.2 tbl1
  | (Raised e, tbl1) => (Raised e, tbl1)
  | (Diverged, tbl1) => (Diverged, tbl1)
  end.
Proof.
  cbn [ClassSessionAdmin.repeats_of_queryset]. unfold mbind, M_bind.
  by destruct (of_seed seed _ _ c s tbl) as [[[c1 s1]|e|] tbl1].
Qed.

(** No insertion is refused. *)
Lemma repeats_of_seed_no_integrity_error (seed : ClassSession.t) duration (is_ : list Z) :
  forall c s (tbl : list ClassSession.t),
  fst (of_seed seed duration is_ c s tbl) <> Raised IntegrityError.
Proof.
  induction is_ as [|i is_ IH]; intros c s tbl; [discriminate|].
  rewrite repeats_of_seed_cons.
  destruct (timedelta_weeks _) as [step|e] eqn:Hstep.
  2:{ apply timedelta_weeks_Raise in Hstep. by subst e. }
  destruct (datetime_add _ step) as [start_dt|e] eqn:Hcur.
  2:{ apply datetime_add_Raise in Hcur. by subst e. }
  destruct (bool_decide _); [apply IH|].
  destruct (datetime_add start_dt duration) as [end_dt|e] eqn:Hend.
  2:{ apply datetime_add_Raise in Hend. by subst e. }
  destruct (ClassSession.has_type_start _ start_dt tbl); apply IH.
Qed.

Lemma repeats_of_queryset_no_integrity_error occurrences (queryset : list ClassSession.t) :
  forall c s (tbl : list ClassSession.t),
  fst (of_queryset queryset occurrences c s tbl) <> Raised IntegrityError.
Proof.
  induction queryset as [|seed queryset IH]; intros c s tbl; [discriminate|].
  rewrite repeats_of_queryset_cons.
  match goal with
  | |- context [of_seed seed ?d ?is_ c s tbl] =>
      pose proof (repeats_of_seed_no_integrity_error seed d is_ c s tbl) as Hs;
      destruct (of_seed seed d is_ c s tbl) as [[cs|e|] tbl1]
  end; [apply IH|exact Hs|discriminate].
Qed.

(** The uniqueness of (class type, start) is kept. *)
Lemma repeats_of_seed_unique (seed : ClassSession.t) duration (is_ : list Z) :
  forall c s (tbl : list ClassSession.t),
  ClassSession.unique_classsession_type_start tbl ->
  ClassSession.unique_classsession_type_start (snd (of_seed seed duration is_ c s tbl)).
Proof.
  induction is_ as [|i is_ IH]; intros c s tbl Hu; [exact Hu|].
  rewrite repeats_of_seed_cons.
  destruct (timedelta_weeks _) as [step|e]; [|exact Hu].
  destruct (datetime_add _ step) as [start_dt|e]; [|exact Hu].
  destruct (bool_decide _); [by apply IH|].
  destruct (datetime_add start_dt duration) as [end_dt|e]; [|exact Hu].
  destruct (ClassSession.has_type_start _ start_dt tbl) eqn:Hex; [by apply IH|].
  apply IH. by apply unique_snoc.
Qed.

Lemma repeats_of_queryset_unique occurrences (queryset : list ClassSession.t) :
  forall c s (tbl : list ClassSession.t),
  ClassSession.unique_classsession_type_start tbl ->
  ClassSession.unique_classsession_type_start (snd (of_queryset queryset occurrences c s tbl)).
Proof.
  induction queryset as [|seed queryset IH]; intros c s tbl Hu; [exact Hu|].
  rewrite repeats_of_queryset_cons.
  match goal with
  | |- context [of_seed seed ?d ?is_ c s tbl] =>
      pose proof (repeats_of_seed_unique seed d is_ c s tbl Hu) as Hs;
      destruct (of_seed seed d is_ c s tbl) as [[cs|e|] tbl1]
  end; [by apply IH|exact Hs|exact Hs].
Qed.





End BatchSteps.

(** ** The action over the seeds' own recurrence fields *)

Lemma generate_recurrences_no_integrity_error fuel (seed : ClassSession.t) default_weeks
    dry_run (tbl : list ClassSession.t) :
  fst (ClassSession.generate_recurrences fuel seed default_weeks dry_run tbl)
  <> Raised IntegrityError.
Proof.
  destruct (generate_recurrences_cases_end seed default_weeks)
    as [(r & _ & _ & _ & ->) | [-> | (_ & _ & ->)]]; [discriminate..|].
  apply recurrence_loop_no_integrity_error.
Qed.

Lemma generate_recurrences_unique fuel (seed : ClassSession.t) default_weeks
    dry_run (tbl : list ClassSession.t) :
  ClassSession.unique_classsession_type_start tbl ->
  ClassSession.unique_classsession_type_start
    (snd (ClassSession.generate_recurrences fuel seed default_weeks dry_run tbl)).
Proof.
  intros Hu.
  destruct (generate_recurrences_cases_end seed default_weeks)
    as [(r & _ & _ & _ & ->) | [-> | (_ & _ & ->)]]; [exact Hu..|].
  by apply recurrence_loop_unique.
Qed.

(** A second call on a table that holds every key of the table left by
    a first, persisting call. *)
Lemma generate_recurrences_rerun_on fuel (seed : ClassSession.t) default_weeks
    (tbl tbl1 : list ClassSession.t) r1 :
  ClassSession.generate_recurrences fuel seed default_weeks false tbl = (Returned r1, tbl1) ->
  forall (tblX : list ClassSession.t),
  (forall ct st, ClassSession.has_type_start ct st tbl1 = true ->
                 ClassSession.has_type_start ct st tblX = true) ->
  ClassSession.generate_recurrences fuel seed default_weeks false tblX
  = (Returned {| ClassSession.created := 0;
                 ClassSession.skipped := ClassSession.skipped r1 + ClassSession.created r1;
                 ClassSession.reason := ClassSession.reason r1 |}, tblX).
Proof.
  intros Hrun tblX Hsub.
  destruct (generate_recurrences_cases seed default_weeks)
    as [(r & Hc & Hs & Hall) | [(e & Hall) | (d & _ & Hall)]];
    rewrite Hall in Hrun; rewrite Hall.
  - injection Hrun as <- <-. destruct r as [c s rs]. cbn in *. subst. reflexivity.
  - discriminate Hrun.
  - destruct (recurrence_loop_rerun seed d _ _ fuel _ 0 0 tbl tbl1 r1 Hrun tblX false 0 0)
      as [Hok ->]; [by intros st; apply Hsub|].
    rewrite Hok. do 3 f_equal. lia.
Qed.

Section ActionSteps.

Variable fuel : nat.

Local Abbreviation fields_loop := (ClassSessionAdmin.recurrence_fields_loop fuel).

Lemma recurrence_fields_loop_cons (seed : ClassSession.t) (queryset : list ClassSession.t)
    tc ts (tbl : list ClassSession.t) :
  fields_loop (seed :: queryset) tc ts tbl =
  match ClassSession.generate_recurrences fuel seed 12 false tbl with
  | (Returned res, tbl1) =>
      fields_loop queryset (tc + ClassSession.created res) (ts + ClassSession.skipped res) tbl1
  | (Raised e, tbl1) => (Raised e, tbl1)
  | (Diverged, tbl1) => (Diverged, tbl1)
  end.
Proof. reflexivity. Qed.

Lemma recurrence_fields_loop_appends (queryset : list ClassSession.t) :
  forall tc ts (tbl : list ClassSession.t),
  exists new,
    snd (fields_loop queryset tc ts tbl) = tbl ++ new
    /\ Forall (fun r => exists seed,
                 seed ∈ queryset
                 /\ ClassSession.made_by seed (ClassSession._skip_set seed)
                      (datetime_sub (ClassSession.end_datetime seed)
                                    (ClassSession.start_datetime seed)) r) new.
Proof.
  induction queryset as [|seed queryset IH]; intros tc ts tbl.
  { exists []. by rewrite app_nil_r. }
  rewrite recurrence_fields_loop_cons.
  destruct (generate_recurrences_appends seed 12 fuel false tbl) as (new1 & Hnew1 & Hall1).
  assert (Forall (fun r => exists sd,
                    sd ∈ seed :: queryset
                    /\ ClassSession.made_by sd (ClassSession._skip_set sd)
                         (datetime_sub (ClassSession.end_datetime sd)
                                       (ClassSession.start_datetime sd)) r) new1) as Hall1'.
  { eapply Forall_impl; [exact Hall1|]. intros r Hr. exists seed.
    split; [apply list_elem_of_here|exact Hr]. }
  destruct (ClassSession.generate_recurrences fuel seed 12 false tbl) as [[res|e|] tbl1];
    cbn [snd] in Hnew1; subst tbl1; [|by exists new1..].
  destruct (IH (tc + ClassSession.created res) (ts + ClassSession.skipped res) (tbl ++ new1))
    as (new2 & -> & Hall2).
  exists (new1 ++ new2). split; [by rewrite app_assoc|].
  apply Forall_app. split; [exact Hall1'|].
  eapply Forall_impl; [exact Hall2|]. intros r (sd & Hin & Hr). exists sd.
  split; [by apply list_elem_of_further|exact Hr].
Qed.

Lemma recurrence_fields_loop_no_integrity_error (queryset : list ClassSession.t) :
  forall tc ts (tbl : list ClassSession.t),
  fst (fields_loop queryset tc ts tbl) <> Raised IntegrityError.
Proof.
  induction queryset as [|seed queryset IH]; intros tc ts tbl; [discriminate|].
  rewrite recurrence_fields_loop_cons.
  pose proof (generate_recurrences_no_integrity_error fuel seed 12 false tbl) as Hs.
  destruct (ClassSession.generate_recurrences fuel seed 12 false tbl) as [[res|e|] tbl1];
    [apply IH|cbn in *; congruence|discriminate].
Qed.

Lemma recurrence_fields_loop_unique (queryset : list ClassSession.t) :
  forall tc ts (tbl : list ClassSession.t),
  ClassSession.unique_classsession_type_start tbl ->
  ClassSession.unique_classsession_type_start (snd (fields_loop queryset tc ts tbl)).
Proof.
  induction queryset as [|seed queryset IH]; intros tc ts tbl Hu; [exact Hu|].
  rewrite recurrence_fields_loop_cons.
  pose proof (generate_recurrences_unique fuel seed 12 false tbl Hu) as Hs.
  destruct (ClassSession.generate_recurrences fuel seed 12 false tbl) as [[res|e|] tbl1];
    [by apply IH|exact Hs|exact Hs].
Qed.

Lemma recurrence_fields_loop_rerun (queryset : list ClassSession.t) :
  forall tc ts (tbl tbl1 : list ClassSession.t) tc1 ts1,
  fields_loop queryset tc ts tbl = (Returned (tc1, ts1), tbl1) ->
  forall (tblX : list ClassSession.t) tc' ts',
  (forall ct st, ClassSession.has_type_start ct st tbl1 = true ->
                 ClassSession.has_type_start ct st tblX = true) ->
  fields_loop queryset tc' ts' tblX
  = (Returned (tc', ts' + (tc1 - tc) + (ts1 - ts)), tblX).
Proof.
  induction queryset as [|seed queryset IH];
    intros tc ts tbl tbl1 tc1 ts1 Hrun tblX tc' ts' Hsub.
  { injection Hrun as <- <- <-.
    replace (ts' + (tc - tc) + (ts - ts)) with ts' by lia. reflexivity. }
  rewrite recurrence_fields_loop_cons in Hrun. rewrite recurrence_fields_loop_cons.
  pose proof (generate_recurrences_rerun_on fuel seed 12 tbl) as Hs.
  destruct (ClassSession.generate_recurrences fuel seed 12 false tbl) as [[res|e|] tbla];
    [|discriminate Hrun..].
  destruct (recurrence_fields_loop_appends queryset
              (tc + ClassSession.created res) (ts + ClassSession.skipped res) tbla)
    as (new & Hnew & _).
  rewrite Hrun in Hnew. cbn in Hnew.
  rewrite (Hs tbla res eq_refl tblX).
  2:{ intros ct st Hin. apply Hsub. rewrite Hnew, has_type_start_app, Hin. reflexivity. }
  cbn [ClassSession.created ClassSession.skipped].
  rewrite (IH _ _ _ _ _ _ Hrun tblX _ _ Hsub). do 3 f_equal; lia.
Qed.

End ActionSteps.

(** ** The generators and the table constraint *)

(** X7: none of the three generators ever has an insertion refused by
    the uniqueness constraint: whatever the seeds, the options and the
    table, the outcome is not an [IntegrityError]. *)
Theorem generators_never_hit_the_constraint :
  (forall fuel (seed : ClassSession.t) default_weeks dry_run (tbl : list ClassSession.t),
      fst (ClassSession.generate_recurrences fuel seed default_weeks dry_run tbl)
      <> Raised IntegrityError)
  /\ (forall form (queryset tbl : list ClassSession.t),
      fst (ClassSessionAdmin.generate_repeats form queryset tbl) <> Raised IntegrityError)
  /\ (forall fuel (queryset tbl : list ClassSession.t),
      fst (ClassSessionAdmin.generate_from_recurrence_fields fuel queryset tbl)
      <> Raised IntegrityError).
Proof.
  split; [|split].
  - intros. apply generate_recurrences_no_integrity_error.
  - intros form queryset tbl. unfold ClassSessionAdmin.generate_repeats.
    destruct (ClassSessionAdmin.is_valid form) as [[occurrences interval]|]; [|discriminate].
    unfold mbind, M_bind.
    pose proof (repeats_of_queryset_no_integrity_error interval
                  (ClassSessionAdmin.parse_skips (ClassSessionAdmin.skip_dates form))
                  occurrences queryset 0 0 tbl) as Hq.
    destruct (ClassSessionAdmin.repeats_of_queryset _ _ _ _ _ _ _) as [[[c s]|e|] tbl1];
      [discriminate| |discriminate].
    cbn in *. congruence.
  - intros fuel queryset tbl. unfold ClassSessionAdmin.generate_from_recurrence_fields.
    unfold mbind, M_bind.
    pose proof (recurrence_fields_loop_no_integrity_error fuel queryset 0 0 tbl) as Hq.
    destruct (ClassSessionAdmin.recurrence_fields_loop _ _ _ _ _) as [[[c s]|e|] tbl1];
      [discriminate| |discriminate].
    cbn in *. congruence.
Qed.

(** X8: a table in which no two rows share class type and start is
    still such a table after any of the three generators has run on it,
    whatever the outcome of the run. *)
Theorem generators_keep_starts_unique (tbl : list ClassSession.t) :
  ClassSession.unique_classsession_type_start tbl ->
  (forall fuel (seed : ClassSession.t) default_weeks dry_run,
      ClassSession.unique_classsession_type_start
        (snd (ClassSession.generate_recurrences fuel seed default_weeks dry_run tbl)))
  /\ (forall form (queryset : list ClassSession.t),
      ClassSession.unique_classsession_type_start
        (snd (ClassSessionAdmin.generate_repeats form queryset tbl)))
  /\ (forall fuel (queryset : list ClassSession.t),
      ClassSession.unique_classsession_type_start
        (snd (ClassSessionAdmin.generate_from_recurrence_fields fuel queryset tbl))).
Proof.
  intros Hu. split; [|split].
  - intros. by apply generate_recurrences_unique.
  - intros form queryset. unfold ClassSessionAdmin.generate_repeats.
    destruct (ClassSessionAdmin.is_valid form) as [[occurrences interval]|]; [|exact Hu].
    unfold mbind, M_bind.
    pose proof (repeats_of_queryset_unique interval
                  (ClassSessionAdmin.parse_skips (ClassSessionAdmin.skip_dates form))
                  occurrences queryset 0 0 tbl Hu) as Hq.
    by destruct (ClassSessionAdmin.repeats_of_queryset _ _ _ _ _ _ _) as [[[c s]|e|] tbl1].
  - intros fuel queryset. unfold ClassSessionAdmin.generate_from_recurrence_fields.
    unfold mbind, M_bind.
    pose proof (recurrence_fields_loop_unique fuel queryset 0 0 tbl Hu) as Hq.
    by destruct (ClassSessionAdmin.recurrence_fields_loop _ _ _ _ _) as [[[c s]|e|] tbl1].
Qed.

Lemma generators_keep_starts_unique_witness :
  (forall fuel (seed : ClassSession.t) default_weeks dry_run,
      ClassSession.unique_classsession_type_start
        (snd (ClassSession.generate_recurrences fuel seed default_weeks dry_run [weekly_seed])))
  /\ (forall form (queryset : list ClassSession.t),
      ClassSession.unique_classsession_type_start
        (snd (ClassSessionAdmin.generate_repeats form queryset [weekly_seed])))
  /\ (forall fuel (queryset : list ClassSession.t),
      ClassSession.unique_classsession_type_start
        (snd (ClassSessionAdmin.generate_from_recurrence_fields fuel queryset [weekly_seed]))).
Proof.
  apply generators_keep_starts_unique.
  unfold ClassSession.unique_classsession_type_start. cbn. apply NoDup_singleton.
Defined.

(** ** The batch action: options, counts and re-runs *)

Lemma is_valid_Some form occ itv :
  ClassSessionAdmin.is_valid form = Some (occ, itv) ->
  ClassSessionAdmin.occurrences form = Some occ
  /\ ClassSessionAdmin.every_n_weeks form = Some itv
  /\ 1 <= occ /\ 1 <= itv.
Proof.
  unfold ClassSessionAdmin.is_valid.
  destruct (ClassSessionAdmin.occurrences form) as [o|]; [|discriminate].
  destruct (ClassSessionAdmin.every_n_weeks form) as [i|]; [|discriminate].
  destruct (Z.leb_spec 1 o), (Z.leb_spec 1 i); cbn; try discriminate.
  intros [= <- <-]. by repeat split.
Qed.

(** X9: options that lack an integer for [occurrences] or
    [every_n_weeks], or carry one below 1, are answered with the error
    message, and no row is written. *)
Theorem invalid_options_write_nothing form (queryset tbl : list ClassSession.t) :
  (forall occ itv, ClassSessionAdmin.occurrences form = Some occ ->
                   ClassSessionAdmin.every_n_weeks form = Some itv ->
                   occ < 1 \/ itv < 1) ->
  ClassSessionAdmin.generate_repeats form queryset tbl
  = (Returned (ClassSessionAdmin.ERROR "Please provide valid repeat options."), tbl).
Proof.
  intros Hbad. unfold ClassSessionAdmin.generate_repeats.
  destruct (ClassSessionAdmin.is_valid form) as [[occ itv]|] eqn:Hv; [|reflexivity].
  apply is_valid_Some in Hv as (Ho & Hi & ? & ?).
  destruct (Hbad occ itv Ho Hi); lia.
Qed.

Lemma invalid_options_write_nothing_witness :
  ClassSessionAdmin.generate_repeats incomplete_form [weekly_seed] [weekly_seed]
  = (Returned (ClassSessionAdmin.ERROR "Please provide valid repeat options."),
     [weekly_seed]).
Proof.
  apply invalid_options_write_nothing. intros occ itv Ho. discriminate Ho.
Defined.





(** X12: the action over the seeds' own recurrence fields, run a second
    time over the same selection on the table its first run has left:
    it generates nothing and skips what the first run generated or
    skipped. *)
Theorem fields_rerun_creates_nothing fuel (queryset tbl tbl1 : list ClassSession.t) c s :
  ClassSessionAdmin.generate_from_recurrence_fields fuel queryset tbl
  = (Returned (ClassSessionAdmin.INFO_generated_skipped c s), tbl1) ->
  ClassSessionAdmin.generate_from_recurrence_fields fuel queryset tbl1
  = (Returned (ClassSessionAdmin.INFO_generated_skipped 0 (c + s)), tbl1).
Proof.
  unfold ClassSessionAdmin.generate_from_recurrence_fields. intros Hrun.
  unfold mbind, M_bind in *.
  destruct (ClassSessionAdmin.recurrence_fields_loop _ _ _ _ tbl)
    as [[[c1 s1]|e|] tbl1'] eqn:Hq; [|discriminate Hrun..].
  injection Hrun as <- <- <-.
  rewrite (recurrence_fields_loop_rerun _ _ _ _ _ _ _ _ Hq tbl1' 0 0) by auto.
  replace (0 + (c1 - 0) + (s1 - 0)) with (c1 + s1) by lia. reflexivity.
Qed.

Lemma fields_rerun_creates_nothing_witness :
  ClassSessionAdmin.generate_from_recurrence_fields 10 [weekly_seed] weekly_after_first_run
  = (Returned (ClassSessionAdmin.INFO_generated_skipped 0 (2 + 1)), weekly_after_first_run).
Proof.
  apply (fields_rerun_creates_nothing 10 [weekly_seed] [weekly_seed]).
  vm_compute. reflexivity.
Defined.

(** ** Skip dates *)

Lemma skip_fold_elem (l : list skip_entry) :
  forall (acc : gset Z) d,
  d ∈ foldl (fun out v =>
               match v with
               | JStr s => match strptime_ymd s with
                           | Some d => out ∪ {[ d ]}
                           | None => out
                           end
               | JDate d => out ∪ {[ d ]}
               | JOther => out
               end) acc l
  <-> d ∈ acc
      \/ exists v, v ∈ l /\ (v = JDate d \/ exists s, v = JStr s /\ strptime_ymd s = Some d).
Proof.
  induction l as [|v l IH]; intros acc d; cbn [foldl].
  { split; [by left|]. intros [H|(v & Hv & _)]; [exact H|by apply not_elem_of_nil in Hv]. }
  rewrite IH. split.
  - intros [Hacc|(w & Hw & Hd)].
    + destruct v as [s|d'|].
      * destruct (strptime_ymd s) as [d'|] eqn:Hs; [|by left].
        apply elem_of_union in Hacc as [Hacc|Hacc]; [by left|].
        apply elem_of_singleton in Hacc. subst d'. right. exists (JStr s).
        split; [apply list_elem_of_here|]. right. by exists s.
      * apply elem_of_union in Hacc as [Hacc|Hacc]; [by left|].
        apply elem_of_singleton in Hacc. subst d'. right. exists (JDate d).
        split; [apply list_elem_of_here|by left].
      * by left.
    + right. exists w. split; [by apply list_elem_of_further|exact Hd].
  - intros [Hacc|(w & Hw & Hd)].
    + left. destruct v as [s|d'|]; [destruct (strptime_ymd s)| |];
        first [exact Hacc|apply elem_of_union; by left].
    + apply elem_of_cons in Hw as [->|Hw].
      * left. destruct Hd as [->|(s & -> & ->)];
          apply elem_of_union; right; by apply elem_of_singleton.
      * right. by exists w.
Qed.

(** X13: the skip set of a seed holds exactly the days that some entry
    of [recurrence_skips] denotes, as a date value or as a string that
    parses as [YYYY-MM-DD]; strings that do not parse and entries of
    another kind contribute nothing. *)
Theorem skip_set_elem (self : ClassSession.t) (d : Z) :
  d ∈ ClassSession._skip_set self
  <-> exists v, v ∈ ClassSession.recurrence_skips self
                /\ (v = JDate d \/ exists s, v = JStr s /\ strptime_ymd s = Some d).
Proof.
  unfold ClassSession._skip_set. rewrite skip_fold_elem. split.
  - intros [H|H]; [by apply not_elem_of_empty in H|exact H].
  - intros H. by right.
Qed.

Lemma token_fold_elem (l : list string) :
  forall (acc : gset Z) d,
  d ∈ foldl (fun skip_set token =>
               match token with
               | EmptyString => skip_set
               | _ => match strptime_ymd token with
                      | Some d => skip_set ∪ {[ d ]}
                      | None => skip_set
                      end
               end) acc l
  <-> d ∈ acc \/ exists token, token ∈ l /\ strptime_ymd token = Some d.
Proof.
  induction l as [|t l IH]; intros acc d; cbn [foldl].
  { split; [by left|]. intros [H|(v & Hv & _)]; [exact H|by apply not_elem_of_nil in Hv]. }
  rewrite IH. split.
  - intros [Hacc|(w & Hw & Hd)].
    + destruct t as [|a t]; [by left|].
      destruct (strptime_ymd (String a t)) as [d'|] eqn:Hs; [|by left].
      apply elem_of_union in Hacc as [Hacc|Hacc]; [by left|].
      apply elem_of_singleton in Hacc. subst d'. right. exists (String a t).
      split; [apply list_elem_of_here|exact Hs].
    + right. exists w. split; [by apply list_elem_of_further|exact Hd].
  - intros [Hacc|(w & Hw & Hd)].
    + left. destruct t as [|a t]; [exact Hacc|].
      destruct (strptime_ymd (String a t)); first [exact Hacc|apply elem_of_union; by left].
    + apply elem_of_cons in Hw as [->|Hw].
      * left. destruct t as [|a t]; [discriminate Hd|]. rewrite Hd.
        apply elem_of_union; right; by apply elem_of_singleton.
      * right. by exists w.
Qed.

(** X14: the skip set of the batch action holds exactly the days that
    some token of the stripped [skip_dates] text, split at commas and
    white space, denotes; tokens that are not dates are dropped, and an
    empty or blank text gives the empty set. *)
Theorem parse_skips_elem (raw : string) (d : Z) :
  d ∈ ClassSessionAdmin.parse_skips raw
  <-> exists token, token ∈ ClassSessionAdmin.re_split (ClassSessionAdmin.strip raw)
                    /\ strptime_ymd token = Some d.
Proof.
  unfold ClassSessionAdmin.parse_skips.
  destruct (ClassSessionAdmin.strip raw) as [|a t] eqn:Hs.
  - split; [intros H; by apply not_elem_of_empty in H|].
    intros (token & Hin & Hd). cbn in Hin.
    apply list_elem_of_singleton in Hin. subst token. discriminate Hd.
  - rewrite token_fold_elem. split.
    + intros [H|H]; [by apply not_elem_of_empty in H|exact H].
    + intros H. by right.
Qed.

(** X15: a day listed in [recurrence_skips] as a string that parses is
    never the day of a row that [generate_recurrences] writes. *)
Theorem skipped_day_not_generated (fuel : nat) (seed : ClassSession.t) (default_weeks : Z)
    (dry_run : bool) (tbl : list ClassSession.t) (s : string) (d : Z) :
  JStr s ∈ ClassSession.recurrence_skips seed ->
  strptime_ymd s = Some d ->
  exists new,
    snd (ClassSession.generate_recurrences fuel seed default_weeks dry_run tbl) = tbl ++ new
    /\ Forall (fun r => datetime_date (ClassSession.start_datetime r) <> d) new.
Proof.
  intros Hin Hd.
  destruct (generate_recurrences_appends seed default_weeks fuel dry_run tbl)
    as (new & Hnew & Hall).
  exists new. split; [exact Hnew|].
  eapply Forall_impl; [exact Hall|]. intros r (_ & Hskip & _) Heq. apply Hskip.
  rewrite Heq. unfold ClassSession._skip_set. apply skip_fold_elem. right.
  exists (JStr s). split; [exact Hin|]. right. by exists s.
Qed.

Lemma skipped_day_not_generated_witness :
  exists new,
    snd (ClassSession.generate_recurrences 10 weekly_seed 12 false [weekly_seed])
    = [weekly_seed] ++ new
    /\ Forall (fun r => datetime_date (ClassSession.start_datetime r) <> 738893) new.
Proof.
  apply (skipped_day_not_generated 10 weekly_seed 12 false [weekly_seed] "2024-01-08").
  - apply list_elem_of_here.
  - reflexivity.
Defined.

(** X16: a day given as a token of the batch action's [skip_dates] is
    never the day of a row that the action writes, for any selected
    seed. *)
Theorem batch_skipped_day_not_generated form (queryset tbl : list ClassSession.t)
    (token : string) (d : Z) :
  token ∈ ClassSessionAdmin.re_split
            (ClassSessionAdmin.strip (ClassSessionAdmin.skip_dates form)) ->
  strptime_ymd token = Some d ->
  exists new,
    snd (ClassSessionAdmin.generate_repeats form queryset tbl) = tbl ++ new
    /\ Forall (fun r => datetime_date (ClassSession.start_datetime r) <> d) new.
Proof.
  intros Hin Hd.
  destruct (generate_repeats_appends form queryset tbl) as (new & Hnew & Hall).
  exists new. split; [exact Hnew|].
  eapply Forall_impl; [exact Hall|]. intros r (seed & _ & _ & Hskip & _) Heq. apply Hskip.
  rewrite Heq. unfold ClassSessionAdmin.parse_skips.
  destruct (ClassSessionAdmin.strip _) as [|a t].
  - cbn in Hin. apply list_elem_of_singleton in Hin. subst token. discriminate Hd.
  - apply token_fold_elem. right. by exists token.
Qed.

Lemma batch_skipped_day_not_generated_witness :
  exists new,
    snd (ClassSessionAdmin.generate_repeats weekly_form [weekly_seed] [weekly_seed])
    = [weekly_seed] ++ new
    /\ Forall (fun r => datetime_date (ClassSession.start_datetime r) <> 738893) new.
Proof.
  apply (batch_skipped_day_not_generated weekly_form [weekly_seed] [weekly_seed]
           "2024-01-08").
  - vm_compute. apply list_elem_of_here.
  - reflexivity.
Defined.

(** ** Generated rows and [clean] *)

Lemma clean_None (r : ClassSession.t) :
  ClassSession.clean r = None
  <-> ClassSession.start_datetime r < ClassSession.end_datetime r.
Proof.
  unfold ClassSession.clean.
  destruct (Z.leb_spec (ClassSession.end_datetime r) (ClassSession.start_datetime r));
    split; (discriminate || lia || reflexivity).
Qed.

Lemma made_by_clean (seed r : ClassSession.t) skip_set :
  ClassSession.clean seed = None ->
  ClassSession.made_by seed skip_set
    (datetime_sub (ClassSession.end_datetime seed) (ClassSession.start_datetime seed)) r ->
  ClassSession.clean r = None.
Proof.
  rewrite !clean_None. intros Hseed (_ & _ & Hd). unfold datetime_sub in Hd. lia.
Qed.

(** X17: seeds that pass [ClassSession.clean] (end after start) only
    beget rows that pass it: this holds of every row written by the
    per-seed generator, by the batch action and by the action over the
    recurrence fields. *)
Theorem generated_rows_pass_clean :
  (forall fuel (seed : ClassSession.t) default_weeks dry_run (tbl : list ClassSession.t),
      ClassSession.clean seed = None ->
      exists new,
        snd (ClassSession.generate_recurrences fuel seed default_weeks dry_run tbl) = tbl ++ new
        /\ Forall (fun r => ClassSession.clean r = None) new)
  /\ (forall form (queryset tbl : list ClassSession.t),
      Forall (fun seed => ClassSession.clean seed = None) queryset ->
      exists new,
        snd (ClassSessionAdmin.generate_repeats form queryset tbl) = tbl ++ new
        /\ Forall (fun r => ClassSession.clean r = None) new)
  /\ (forall fuel (queryset tbl : list ClassSession.t),
      Forall (fun seed => ClassSession.clean seed = None) queryset ->
      exists new,
        snd (ClassSessionAdmin.generate_from_recurrence_fields fuel queryset tbl) = tbl ++ new
        /\ Forall (fun r => ClassSession.clean r = None) new).
Proof.
  split; [|split].
  - intros fuel seed default_weeks dry_run tbl Hseed.
    destruct (generate_recurrences_appends seed default_weeks fuel dry_run tbl)
      as (new & Hnew & Hall).
    exists new. split; [exact Hnew|].
    eapply Forall_impl; [exact Hall|]. intros r Hr. by eapply made_by_clean.
  - intros form queryset tbl Hseeds.
    destruct (generate_repeats_appends form queryset tbl) as (new & Hnew & Hall).
    exists new. split; [exact Hnew|].
    eapply Forall_impl; [exact Hall|]. intros r (seed & Hin & Hr).
    eapply made_by_clean; [|exact Hr].
    by apply (proj1 (Forall_forall _ _) Hseeds).
  - intros fuel queryset tbl Hseeds.
    unfold ClassSessionAdmin.generate_from_recurrence_fields, mbind, M_bind.
    destruct (recurrence_fields_loop_appends fuel queryset 0 0 tbl) as (new & Hnew & Hall).
    exists new. split.
    + by destruct (ClassSessionAdmin.recurrence_fields_loop _ _ _ _ _)
        as [[[c s]|e|] tbl1].
    + eapply Forall_impl; [exact Hall|]. intros r (seed & Hin & Hr).
      eapply made_by_clean; [|exact Hr].
      by apply (proj1 (Forall_forall _ _) Hseeds).
Qed.

Lemma generated_rows_pass_clean_witness :
  exists new,
    snd (ClassSession.generate_recurrences 10 weekly_seed 12 false [weekly_seed])
    = [weekly_seed] ++ new
    /\ Forall (fun r => ClassSession.clean r = None) new.
Proof.
  apply (proj1 generated_rows_pass_clean). reflexivity.
Defined.

(** * Further properties of the capacity guard and of validation *)

Lemma committed_sum_elem (tbl : list Booking.t) (b : Booking.t) sid :
  Forall (fun b => 0 <= Booking.quantity b) tbl ->
  b ∈ tbl ->
  Booking.session b = sid ->
  Booking.status b = CONFIRMED ->
  Booking.quantity b <= committed_sum confirmed_only sid tbl.
Proof.
  intros Hq Hin Hs Hc. induction Hq as [|b' tbl Hb' Hq IH].
  { by apply not_elem_of_nil in Hin. }
  cbn [committed_sum].
  pose proof (committed_sum_nonneg confirmed_only sid tbl Hq) as Hnn.
  apply elem_of_cons in Hin as [<-|Hin].
  - rewrite Hs, Hc, Z.eqb_refl. cbn. lia.
  - specialize (IH Hin). destruct (_ && _); lia.
Qed.

(** X18: [Event.can_accept] in full: a private event and an event
    without capacity limit accept every quantity, even one below 1; a
    public event with a positive capacity accepts [q] exactly when
    [1 <= q <= max(capacity - S, 0)], [S] being the sum over its
    CONFIRMED registrations. *)
Theorem event_can_accept_iff (ev : Event.t) (tbl : list EventRegistration.t) (q : Z) :
  Event.can_accept ev tbl q = true
  <-> Event.event_type ev = PRIVATE
      \/ Event.capacity ev <= 0
      \/ (1 <= q
          /\ q <= Z.max (Event.capacity ev
                         - committed_sum_event confirmed_only (Event.id ev) tbl) 0).
Proof.
  unfold Event.can_accept. rewrite event_spots_left_spec. unfold Event.is_public.
  destruct (Event.event_type ev).
  - rewrite (bool_decide_eq_false_2 (PRIVATE = PUBLIC)) by discriminate. cbn [negb orb].
    split; [by left|reflexivity].
  - rewrite (bool_decide_eq_true_2 (PUBLIC = PUBLIC)) by reflexivity. cbn [negb orb].
    rewrite orb_false_r.
    destruct (Z.leb_spec (Event.capacity ev) 0) as [Hle|Hgt].
    + split; [by right; left|reflexivity].
    + unfold or_0. rewrite andb_true_iff, Z.ltb_lt.
      destruct (Z.eqb_spec (Z.max (Event.capacity ev
                  - committed_sum_event confirmed_only (Event.id ev) tbl) 0) 0) as [->|Hne];
        rewrite Z.leb_le; split.
      * lia.
      * intros [?|[?|?]]; [discriminate|lia|lia].
      * intros [? ?]. right. right. lia.
      * intros [?|[?|?]]; [discriminate|lia|lia].
Qed.

(** X19: a CONFIRMED booking that is in the table counts against
    itself when it is validated again: [Booking.clean] passes only if
    twice its quantity fits into the capacity of its session. *)
Theorem confirmed_booking_counts_against_itself
    (b : Booking.t) (session : ClassSession.t) (tbl : list Booking.t) :
  Forall (fun b => 0 <= Booking.quantity b) tbl ->
  b ∈ tbl ->
  Booking.session b = ClassSession.id session ->
  Booking.status b = CONFIRMED ->
  Booking_clean b session tbl = None ->
  2 * Booking.quantity b <= ClassSession.capacity session.
Proof.
  intros Hq Hin Hs Hc Hclean.
  pose proof (committed_sum_elem tbl b _ Hq Hin Hs Hc) as Hsum.
  unfold Booking_clean in Hclean. rewrite Hc in Hclean. cbn in Hclean.
  destruct (ClassSession.can_accept session tbl (Booking.quantity b)) eqn:Hacc;
    [|discriminate Hclean].
  unfold ClassSession.can_accept in Hacc. rewrite spots_left_spec in Hacc.
  apply andb_true_iff in Hacc as [H1 H2]. apply Z.ltb_lt in H1. apply Z.leb_le in H2. lia.
Qed.

Lemma confirmed_booking_counts_against_itself_witness :
  2 * Booking.quantity four_places <= ClassSession.capacity ten_place_slot.
Proof.
  apply (confirmed_booking_counts_against_itself four_places ten_place_slot [four_places]).
  - repeat constructor. vm_compute. discriminate.
  - apply list_elem_of_here.
  - reflexivity.
  - reflexivity.
  - reflexivity.
Defined.

(** X20: the booking form, for a requested quantity of at least 1:
    [clean] passes without any error exactly when the session has not
    started and the quantity is at most [max(capacity - S, 0)];
    and when it attaches the quantity error instead, the number of
    spots it reports is [spots_left], at least 0 and below the quantity
    asked for. *)
Theorem booking_form_clean (session : ClassSession.t) (q now : Z) (tbl : list Booking.t) :
  1 <= q ->
  (BookingCreateForm.clean (Some session) (Some q) now tbl = Cleaned []
   <-> now <= ClassSession.start_datetime session
       /\ q <= Z.max (ClassSession.capacity session
                      - committed_sum confirmed_only (ClassSession.id session) tbl) 0)
  /\ (forall errs,
        BookingCreateForm.clean (Some session) (Some q) now tbl = Cleaned errs ->
        errs = []
        \/ exists n, errs = [("quantity"%string, Some n)]
                     /\ n = ClassSession.spots_left session tbl /\ 0 <= n < q).
Proof.
  intros Hq. unfold BookingCreateForm.clean, ClassSession.can_accept.
  destruct (Z.eqb_spec q 0) as [|_]; [lia|].
  rewrite spots_left_spec.
  destruct (Z.ltb_spec (ClassSession.start_datetime session) now) as [Hpast|Hfut].
  { split; [split; [discriminate|lia]|discriminate]. }
  destruct (Z.ltb_spec 0 q) as [_|]; [|lia]. cbn [andb].
  destruct (Z.leb_spec q (Z.max (ClassSession.capacity session
              - committed_sum confirmed_only (ClassSession.id session) tbl) 0)) as [Hle|Hgt];
    cbn [negb].
  - split; [split; [done|reflexivity]|]. intros errs [= <-]. by left.
  - split; [split; [discriminate|lia]|]. intros errs [= <-]. right.
    eexists. split; [reflexivity|]. split; [reflexivity|lia].
Qed.

Lemma booking_form_clean_witness :
  (BookingCreateForm.clean (Some ten_place_slot) (Some 5) first_of_june [six_places]
   = Cleaned []
   <-> first_of_june <= ClassSession.start_datetime ten_place_slot
       /\ 5 <= Z.max (ClassSession.capacity ten_place_slot
                      - committed_sum confirmed_only (ClassSession.id ten_place_slot)
                          [six_places]) 0)
  /\ (forall errs,
        BookingCreateForm.clean (Some ten_place_slot) (Some 5) first_of_june [six_places]
        = Cleaned errs ->
        errs = []
        \/ exists n, errs = [("quantity"%string, Some n)]
                     /\ n = ClassSession.spots_left ten_place_slot [six_places]
                     /\ 0 <= n < 5).
Proof.
  apply booking_form_clean. lia.
Defined.

(** X21: the capacity error of an event never reports "None spots
    left": whenever [EventRegistrationForm.clean] attaches the quantity
    error, or [EventRegistration.clean] raises, the event is a public
    one with a positive capacity and the number reported is
    [max(capacity - S, 0)]. *)
Theorem event_error_reports_a_number :
  (forall (ev : Event.t) quantity now (regs : list EventRegistration.t) errs,
      EventRegistrationForm.clean (Some ev) quantity now regs = Cleaned errs ->
      errs = []
      \/ (Event.event_type ev = PUBLIC /\ 0 < Event.capacity ev
          /\ errs = [("quantity"%string,
                      Some (Z.max (Event.capacity ev
                                   - committed_sum_event confirmed_only (Event.id ev) regs)
                                  0))]))
  /\ (forall (reg : EventRegistration.t) (ev : Event.t) (regs : list EventRegistration.t) o,
      EventRegistration_clean reg ev regs = Some o ->
      Event.event_type ev = PUBLIC /\ 0 < Event.capacity ev
      /\ o = Some (Z.max (Event.capacity ev
                          - committed_sum_event confirmed_only (Event.id ev) regs) 0)).
Proof.
  assert (forall (ev : Event.t) (regs : list EventRegistration.t) q,
             Event.can_accept ev regs q = false ->
             Event.event_type ev = PUBLIC /\ 0 < Event.capacity ev
             /\ Event.spots_left ev regs
                = Some (Z.max (Event.capacity ev
                               - committed_sum_event confirmed_only (Event.id ev) regs) 0))
    as Hrej.
  { intros ev regs q Hacc. rewrite event_spots_left_spec.
    unfold Event.can_accept, Event.is_public in *.
    destruct (Event.event_type ev).
    { rewrite (bool_decide_eq_false_2 (PRIVATE = PUBLIC)) in Hacc by discriminate.
      discriminate Hacc. }
    rewrite (bool_decide_eq_true_2 (PUBLIC = PUBLIC)) in * by reflexivity.
    cbn [negb orb] in *. rewrite orb_false_r.
    destruct (Z.leb_spec (Event.capacity ev) 0); [discriminate Hacc|].
    by repeat split. }
  split.
  - intros ev quantity now regs errs. unfold EventRegistrationForm.clean.
    destruct (Event.is_public ev); cbn [negb]; [|discriminate].
    destruct (match Event.start_datetime ev with Some _ => _ | None => _ end);
      [discriminate|].
    destruct (Event.can_accept ev regs _) eqn:Hacc; cbn [negb]; intros [= <-]; [by left|].
    right. apply Hrej in Hacc as (? & ? & ->). by repeat split.
  - intros reg ev regs o. unfold EventRegistration_clean.
    destruct (Event.can_accept ev regs _) eqn:Hacc; cbn [negb]; [discriminate|].
    intros [= <-]. by apply Hrej in Hacc.
Qed.

Lemma event_error_reports_a_number_witness :
  Event.event_type small_event = PUBLIC /\ 0 < Event.capacity small_event
  /\ Some 2
     = Some (Z.max (Event.capacity small_event
                    - committed_sum_event confirmed_only (Event.id small_event)
                        [three_seats]) 0).
Proof.
  apply (proj2 event_error_reports_a_number three_seats small_event [three_seats] (Some 2)).
  reflexivity.
Defined.

(** * Further properties of the calendar feed and of the listings *)

#[local] Instance start_le_total : Total start_le.
Proof. intros a b. unfold start_le. lia. Qed.

#[local] Instance start_le_trans : Transitive start_le.
Proof. intros a b c. unfold start_le. lia. Qed.

Lemma elem_of_order_by_start (s : ClassSession.t) (qs : list ClassSession.t) :
  s ∈ order_by_start qs <-> s ∈ qs.
Proof. unfold order_by_start. by rewrite merge_sort_Permutation. Qed.

Lemma feed_of_published (objects qs : list ClassSession.t) :
  (forall s, s ∈ qs -> s ∈ objects /\ ClassSession.is_published s = true) ->
  Forall (fun e => exists s, s ∈ objects /\ ClassSession.is_published s = true
                             /\ e = to_feed_event s)
         (to_feed_event <$> order_by_start qs)
  /\ StronglySorted (fun a b => ev_start a <= ev_start b)
       (to_feed_event <$> order_by_start qs).
Proof.
  intros Hsub. split.
  - apply Forall_fmap, Forall_forall. intros s Hs.
    apply elem_of_order_by_start, Hsub in Hs as [? ?]. by exists s.
  - apply (StronglySorted_fmap _ start_le); [by intros a b|].
    apply StronglySorted_merge_sort; apply _.
Qed.

(** X22: whatever the range parameters, parseable or not, the feed
    only holds published slots of the table, and it is ordered by
    start. *)
Theorem feed_published_and_sorted
    (fromisoformat : string -> option iso_datetime) (make_aware : Z -> datetime)
    (start_param end_param : option string) (now : datetime)
    (objects : list ClassSession.t) :
  Forall (fun e => exists s, s ∈ objects /\ ClassSession.is_published s = true
                             /\ e = to_feed_event s)
         (calendar_events fromisoformat make_aware start_param end_param now objects)
  /\ StronglySorted (fun a b => ev_start a <= ev_start b)
       (calendar_events fromisoformat make_aware start_param end_param now objects).
Proof.
  unfold calendar_events.
  destruct (truthy start_param) as [sp|], (truthy end_param) as [ep|];
    try destruct (parse_aware fromisoformat make_aware sp) as [start_dt|];
    try destruct (parse_aware fromisoformat make_aware ep) as [end_dt|];
    apply feed_of_published; intros s Hs;
    repeat (apply list_elem_of_filter in Hs as [? Hs]); by split.
Qed.

(** X23: with a [start] and an [end] that both parse, the feed is the
    published slots whose start lies between the two, bounds included,
    past slots too: the future-only filter is not applied. *)
Theorem feed_in_range
    (fromisoformat : string -> option iso_datetime) (make_aware : Z -> datetime)
    a sp b ep start_dt end_dt (now : datetime) (objects : list ClassSession.t) :
  parse_aware fromisoformat make_aware (String a sp) = Some start_dt ->
  parse_aware fromisoformat make_aware (String b ep) = Some end_dt ->
  calendar_events fromisoformat make_aware (Some (String a sp)) (Some (String b ep))
    now objects
  = to_feed_event <$>
      order_by_start
        (filter (fun s => ClassSession.is_published s = true
                          /\ start_dt <= ClassSession.start_datetime s
                          /\ ClassSession.start_datetime s <= end_dt) objects).
Proof.
  intros Hs He. unfold calendar_events. cbn [truthy]. rewrite Hs, He.
  rewrite !list_filter_filter. do 2 f_equal.
  apply list_filter_iff. intros s. tauto.
Qed.

Lemma feed_in_range_witness :
  calendar_events fromisoformat_date_only make_aware_utc
    (Some "2023-12-31"%string) (Some "2024-01-01"%string) first_of_june [weekly_seed]
  = to_feed_event <$>
      order_by_start
        (filter (fun s => ClassSession.is_published s = true
                          /\ at_time 2023 12 31 0 0 <= ClassSession.start_datetime s
                          /\ ClassSession.start_datetime s <= at_time 2024 1 1 0 0)
           [weekly_seed]).
Proof.
  apply (feed_in_range _ _ _ _ _ _ (at_time 2023 12 31 0 0) (at_time 2024 1 1 0 0));
    reflexivity.
Defined.

(** X24: range parameters that are absent or empty both: the feed is
    the default one, the published slots that start at [now] or
    later. *)
Theorem feed_default
    (fromisoformat : string -> option iso_datetime) (make_aware : Z -> datetime)
    (start_param end_param : option string) (now : datetime)
    (objects : list ClassSession.t) :
  start_param = None \/ start_param = Some EmptyString ->
  end_param = None \/ end_param = Some EmptyString ->
  calendar_events fromisoformat make_aware start_param end_param now objects
  = future_only_feed now objects.
Proof.
  intros Hs He.
  assert (truthy start_param = None) as Hts by (destruct Hs as [->| ->]; reflexivity).
  assert (truthy end_param = None) as Hte by (destruct He as [->| ->]; reflexivity).
  unfold calendar_events, future_only_feed. rewrite Hts, Hte.
  rewrite list_filter_filter. do 2 f_equal.
  apply list_filter_iff. intros s. tauto.
Qed.

Lemma feed_default_witness :
  calendar_events fromisoformat_date_only make_aware_utc (Some EmptyString) None
    first_of_june [weekly_seed]
  = future_only_feed first_of_june [weekly_seed].
Proof.
  apply feed_default; [by right|by left].
Defined.

(** The landing page's upcoming classes are the first six records of
    the default calendar feed, in the feed's order. *)
Lemma home_shows_head_of_feed
    (fromisoformat : string -> option iso_datetime) (make_aware : Z -> datetime)
    (now : datetime) (objects : list ClassSession.t) :
  to_feed_event <$> home_upcoming now objects
  = take 6 (calendar_events fromisoformat make_aware None None now objects).
Proof.
  rewrite calendar_events_default. unfold home_upcoming, upcoming, future_only_feed.
  apply fmap_take.
Qed.

(** X25: what an anonymous visitor is listed on the landing page and on
    the content hub: only active items of PUBLIC visibility, at most 6
    and 24 of them; a members-only item is never among them. *)
Theorem anonymous_sees_public_only
    (order_latest : list MediaItem.t -> list MediaItem.t) (items : list MediaItem.t) :
  (forall l m, m ∈ order_latest l -> m ∈ l) ->
  (Forall (fun m => m ∈ items /\ MediaItem.is_active m = true
                    /\ MediaItem.visibility m = MediaItem.PUBLIC)
          (home_latest_content order_latest false items)
   /\ (length (home_latest_content order_latest false items) <= 6)%nat)
  /\ (Forall (fun m => m ∈ items /\ MediaItem.is_active m = true
                       /\ MediaItem.visibility m = MediaItem.PUBLIC)
             (content_hub_items order_latest false items)
      /\ (length (content_hub_items order_latest false items) <= 24)%nat).
Proof.
  intros Horder. unfold home_latest_content, content_hub_items. cbn [negb].
  repeat split.
  - apply Forall_forall. intros m Hm.
    apply list_elem_of_filter in Hm as [Hvis Hm].
    eapply elem_of_sublist in Hm; [|apply sublist_take].
    apply Horder, list_elem_of_filter in Hm as [Hact Hm]. by repeat split.
  - etrans; [apply length_filter|]. rewrite length_take. lia.
  - apply Forall_forall. intros m Hm.
    eapply elem_of_sublist in Hm; [|apply sublist_take].
    apply Horder, list_elem_of_filter in Hm as [Hvis Hm].
    apply list_elem_of_filter in Hm as [Hact Hm]. by repeat split.
  - rewrite length_take. lia.
Qed.

Lemma anonymous_sees_public_only_witness :
  (Forall (fun m => m ∈ [members_item; public_item] /\ MediaItem.is_active m = true
                    /\ MediaItem.visibility m = MediaItem.PUBLIC)
          (home_latest_content (fun l => l) false [members_item; public_item])
   /\ (length (home_latest_content (fun l => l) false [members_item; public_item]) <= 6)%nat)
  /\ (Forall (fun m => m ∈ [members_item; public_item] /\ MediaItem.is_active m = true
                       /\ MediaItem.visibility m = MediaItem.PUBLIC)
             (content_hub_items (fun l => l) false [members_item; public_item])
      /\ (length (content_hub_items (fun l => l) false [members_item; public_item])
          <= 24)%nat).
Proof.
  apply anonymous_sees_public_only. intros l m Hm. exact Hm.
Defined.

(** * The staff shortcut *)

Lemma quick_form_valid (form : QuickSessionCreateForm.t) :
  QuickSessionCreateForm.is_valid form = true ->
  exists ct start end_ cap price,
    QuickSessionCreateForm.class_type form = Some ct
    /\ QuickSessionCreateForm.start_datetime form = Some start
    /\ QuickSessionCreateForm.end_datetime form = Some end_
    /\ QuickSessionCreateForm.capacity form = Some cap
    /\ QuickSessionCreateForm.price_cents form = Some price
    /\ start < end_ /\ 1 <= cap /\ 0 <= price.
Proof.
  unfold QuickSessionCreateForm.is_valid, QuickSessionCreateForm.fields_valid,
    QuickSessionCreateForm.clean.
  destruct (QuickSessionCreateForm.class_type form) as [ct|]; [|discriminate].
  destruct (QuickSessionCreateForm.start_datetime form) as [start|]; [|discriminate].
  destruct (QuickSessionCreateForm.end_datetime form) as [end_|]; [|discriminate].
  destruct (QuickSessionCreateForm.capacity form) as [cap|]; [|discriminate].
  destruct (QuickSessionCreateForm.price_cents form) as [price|]; [|discriminate].
  intros Hv. apply andb_true_iff in Hv as [Hf Hc].
  apply andb_true_iff in Hf as [Hcap Hprice].
  apply Z.leb_le in Hcap, Hprice. apply bool_decide_eq_true in Hc.
  destruct (Z.leb_spec end_ start); [discriminate Hc|].
  exists ct, start, end_, cap, price. by repeat split.
Qed.

(** X26: whatever is sent to the staff shortcut, at most one row is
    written, and only for a staff member's POST; the row passes
    [ClassSession.clean], has a capacity of at least 1 and a price of at
    least 0, is published and is not a recurrence seed. *)
Theorem quick_create_writes_valid_rows (is_staff : bool) (method : http_method)
    (form : QuickSessionCreateForm.t) (tbl : list ClassSession.t) :
  exists new,
    snd (quick_create_session is_staff method form tbl) = tbl ++ new
    /\ (length new <= 1)%nat
    /\ (new = [] \/ (is_staff = true /\ method = POST))
    /\ Forall (fun r => ClassSession.clean r = None
                        /\ 1 <= ClassSession.capacity r
                        /\ 0 <= ClassSession.price_cents r
                        /\ ClassSession.is_published r = true
                        /\ ClassSession.recurrence_enabled r = false) new.
Proof.
  assert (exists new : list ClassSession.t,
             (tbl = tbl ++ new) /\ (length new <= 1)%nat
             /\ (new = [] \/ (is_staff = true /\ method = POST))
             /\ Forall (fun r => ClassSession.clean r = None
                                 /\ 1 <= ClassSession.capacity r
                                 /\ 0 <= ClassSession.price_cents r
                                 /\ ClassSession.is_published r = true
                                 /\ ClassSession.recurrence_enabled r = false) new) as Hnil.
  { exists []. rewrite app_nil_r. split; [reflexivity|]. split; [cbn; lia|].
    split; [by left|constructor]. }
  unfold quick_create_session.
  destruct is_staff; cbn [negb]; [|exact Hnil].
  destruct method; [exact Hnil| |exact Hnil].
  destruct (QuickSessionCreateForm.is_valid form) eqn:Hv; [|exact Hnil].
  apply quick_form_valid in Hv
    as (ct & start & end_ & cap & price & -> & -> & -> & -> & -> & Hlt & Hcap & Hprice).
  unfold mbind, M_bind, ClassSession.objects_create.
  destruct (ClassSession.has_type_start ct start tbl); [exact Hnil|].
  eexists [_]. split; [reflexivity|]. split; [cbn; lia|]. split; [by right|].
  constructor; [|constructor].
  split; [apply clean_None; exact Hlt|]. by repeat split.
Qed.



(** * The interval of zero weeks, for every seed *)

Lemma generate_recurrences_enabled (seed : ClassSession.t) (default_weeks : Z) :
  ClassSession.recurrence_enabled seed = true ->
  datetime_date (ClassSession.start_datetime seed)
  <= ClassSession.end_date_of seed default_weeks ->
  (forall fuel dry_run (tbl : list ClassSession.t),
      ClassSession.generate_recurrences fuel seed default_weeks dry_run tbl
      = (Raised OverflowError, tbl))
  \/ (forall fuel dry_run (tbl : list ClassSession.t),
        ClassSession.generate_recurrences fuel seed default_weeks dry_run tbl
        = ClassSession.recurrence_loop fuel seed dry_run
            (ClassSession.end_date_of seed default_weeks)
            (datetime_sub (ClassSession.end_datetime seed)
                          (ClassSession.start_datetime seed))
            (ClassSession._skip_set seed)
            (ClassSession.start_datetime seed) 0 0 tbl).
Proof.
  intros Hen. unfold ClassSession.generate_recurrences, ClassSession.end_date_of.
  rewrite Hen. cbn [negb]. unfold mbind, M_bind, mret, M_ret, lift.
  destruct (ClassSession.recurrence_until seed) as [d|].
  - intros Hle. apply Z.ltb_ge in Hle. rewrite Hle. by right.
  - destruct (timedelta_weeks default_weeks) as [horizon|e] eqn:Hh.
    2:{ apply timedelta_weeks_Raise in Hh. subst e. by left. }
    destruct (date_add _ horizon) as [d|e] eqn:Hd.
    2:{ apply date_add_Raise in Hd. subst e. by left. }
    rewrite <- (date_add_weeks_Ok _ _ _ _ Hh Hd).
    intros Hle. apply Z.ltb_ge in Hle. rewrite Hle. by right.
Qed.

(** X28: a seed with recurrence on, an interval of zero weeks and an
    end date not before its own day never gets a result from
    [generate_recurrences], dry run or not, on any table and with any
    number of iterations: the call raises or is still looping. *)
Theorem zero_interval_has_no_result (fuel : nat) (seed : ClassSession.t)
    (default_weeks : Z) (dry_run : bool) (tbl : list ClassSession.t) :
  ClassSession.recurrence_every_n_weeks seed = 0 ->
  ClassSession.recurrence_enabled seed = true ->
  datetime_date (ClassSession.start_datetime seed)
  <= ClassSession.end_date_of seed default_weeks ->
  forall r, fst (ClassSession.generate_recurrences fuel seed default_weeks dry_run tbl)
            <> Returned r.
Proof.
  intros Hn Hen Hle r.
  destruct (generate_recurrences_enabled seed default_weeks Hen Hle) as [Hall|Hall];
    rewrite Hall; [discriminate|].
  intros Hret.
  destruct (ClassSession.recurrence_loop _ _ _ _ _ _ _ _ _ _) as [o t] eqn:Hrun.
  cbn in Hret. subst o.
  destruct (valid_datetime (ClassSession.start_datetime seed)) eqn:Hvalid.
  - by eapply recurrence_loop_zero_interval in Hrun.
  - destruct fuel as [|fuel]; [discriminate Hrun|].
    rewrite recurrence_loop_S, Hn in Hrun.
    change (timedelta_weeks 0) with (Ok (A := Z) 0) in Hrun.
    unfold datetime_add at 1 in Hrun. rewrite Z.add_0_r, Hvalid in Hrun.
    discriminate Hrun.
Qed.

Lemma zero_interval_has_no_result_witness :
  fst (ClassSession.generate_recurrences 50 zero_interval_seed 12 true [])
  <> Returned {| ClassSession.created := 50; ClassSession.skipped := 0;
                 ClassSession.reason := "ok" |}.
Proof.
  apply zero_interval_has_no_result; [reflexivity|reflexivity|vm_compute; discriminate].
Defined.
